(** * Print portfolio analytics: the analytics engine, embedded and verified

    Shallow embedding of [src/predictive_models.py] and
    [src/utils/prioritization.py].

    Numbers.  Python floats and ints are read as exact rationals ([Q]);
    rounding, infinities and NaN are outside the model.  Equality of
    computed numbers is therefore stated with [==] ([Qeq]) unless both sides
    are built by the same operations.

    Records.  A single initiative handed to a scoring function is a
    "Series or dict": every key may be absent, so each field is an [option].
    [d.get(k, default)] is [dict_get], [d[k]] is [dict_item] and raises
    [KeyError k] on an absent key.  A DataFrame is a list of rows that carry
    every column.

    Library calls.  [np.sqrt] (inside [np.std]), [np.random.normal],
    [scipy.stats.linregress] and the ordering produced by
    [DataFrame.sort_values] are not code of this repository; they are taken
    through the interface [Externals], of which [reference_externals] is a
    computable instance. *)

From Stdlib Require Import QArith Qminmax Qround Qabs ZArith List String Bool Lia Lqa.
From Stdlib Require Import Permutation Sorted.
From Stdlib Require OrderedTypeEx.
Import ListNotations.

Local Open Scope Q_scope.

(* ------------------------------------------------------------------ *)
(** ** Python numerics *)

Definition Qlt_bool (x y : Q) : bool := negb (Qle_bool y x).

(** [max(a, b)]: the first argument is kept unless the second is larger. *)
Definition py_max (a b : Q) : Q := if Qlt_bool a b then b else a.

(** [min(a, b)]: the first argument is kept unless the second is smaller. *)
Definition py_min (a b : Q) : Q := if Qlt_bool b a then b else a.

(** A count used as a number. *)
Definition Qnat (n : nat) : Q := inject_Z (Z.of_nat n).

(** [len(xs)] used as a number. *)
Definition Qlen {A : Type} (xs : list A) : Q := Qnat (List.length xs).

Definition Qsum (xs : list Q) : Q := fold_left Qplus xs 0.

(** [np.mean(xs)].  On an empty sequence numpy answers NaN; the quotient by
    zero of [Q] is 0. *)
Definition np_mean (xs : list Q) : Q := Qsum xs / Qlen xs.

(** [xs[-k:]]: the last [k] elements (all of them when there are fewer). *)
Definition tail_n {A : Type} (k : nat) (xs : list A) : list A :=
  skipn (List.length xs - k) xs.

(* ------------------------------------------------------------------ *)
(** ** Exceptions *)

Inductive error : Type :=
| KeyError (field : string)
| ValueError.

Inductive result (A : Type) : Type :=
| Ok (a : A)
| Raise (e : error).

Arguments Ok {A} a.
Arguments Raise {A} e.

Definition bind {A B : Type} (r : result A) (k : A -> result B) : result B :=
  match r with
  | Ok a => k a
  | Raise e => Raise e
  end.

Notation "x <- r ;; k" := (bind r (fun x => k))
  (at level 61, r at next level, right associativity).

Fixpoint mapM {A B : Type} (f : A -> result B) (xs : list A) : result (list B) :=
  match xs with
  | [] => Ok []
  | x :: rest => y <- f x;; ys <- mapM f rest;; Ok (y :: ys)
  end.

(** [d.get(key, default)] *)
Definition dict_get {A : Type} (o : option A) (default : A) : A :=
  match o with
  | Some v => v
  | None => default
  end.

(** [d[key]] *)
Definition dict_item {A : Type} (key : string) (o : option A) : result A :=
  match o with
  | Some v => Ok v
  | None => Raise (KeyError key)
  end.

(* ------------------------------------------------------------------ *)
(** ** Record model *)

(** An initiative as a Series or dict: any key may be missing. *)
Record initiative : Type := {
  initiative_id : option string;
  name : option string;
  impact_score : option Q;
  effort_score : option Q;
  strategic_category : option string;
  roi_estimate : option string;
  status : option string;
  total_story_points : option Q;
  completed_story_points : option Q;
  target_sprint : option Q
}.

(** A row of [initiatives_df]: every column is present. *)
Record initiative_row : Type := {
  col_initiative_id : string;
  col_name : string;
  col_impact_score : Q;
  col_effort_score : Q;
  col_strategic_category : string;
  col_roi_estimate : string;
  col_status : string;
  col_total_story_points : Q;
  col_completed_story_points : Q;
  col_target_sprint : Q
}.

(** The Series that [df.apply(f, axis=1)] and [df.iterrows()] hand out. *)
Definition as_series (r : initiative_row) : initiative := {|
  initiative_id := Some (col_initiative_id r);
  name := Some (col_name r);
  impact_score := Some (col_impact_score r);
  effort_score := Some (col_effort_score r);
  strategic_category := Some (col_strategic_category r);
  roi_estimate := Some (col_roi_estimate r);
  status := Some (col_status r);
  total_story_points := Some (col_total_story_points r);
  completed_story_points := Some (col_completed_story_points r);
  target_sprint := Some (col_target_sprint r)
|}.

(** A row of [sprints_df], restricted to the columns the engine reads. *)
Record sprint_row : Type := {
  sprint_number : Q;
  velocity : Q
}.

(** [x in [a, b]] on strings. *)
Definition isin (x : string) (xs : list string) : bool :=
  existsb (String.eqb x) xs.

(* ------------------------------------------------------------------ *)
(** ** Library calls *)

(** What the engine relies on from numpy, scipy and pandas.

    - [np_sqrt] is the square root inside [np.std]; a float square root is a
      non-negative number.
    - [np_random_normal loc scale size] is the sample drawn by
      [np.random.normal] under a fixed seed: a function of its arguments,
      [size] long.
    - [stats_linregress xs ys] is the (slope, intercept, r_value) part of
      [scipy.stats.linregress], which raises [ValueError] on degenerate
      input.
    - [sort_values_desc key df] is [df.sort_values(key, ascending=False)]:
      some rearrangement of the rows with keys in descending order (the order
      of ties is pandas' business). *)
Class Externals : Type := {
  np_sqrt : Q -> Q;
  np_sqrt_nonneg : forall x, 0 <= np_sqrt x;
  np_random_normal : Q -> Q -> nat -> list Q;
  np_random_normal_length :
    forall loc scale size, List.length (np_random_normal loc scale size) = size;
  stats_linregress : list Q -> list Q -> result (Q * Q * Q);
  sort_values_desc : forall A : Type, (A -> Q) -> list A -> list A;
  sort_values_desc_perm :
    forall A key (df : list A), Permutation df (sort_values_desc A key df);
  sort_values_desc_sorted :
    forall A key (df : list A),
      Sorted (fun a b => key b <= key a) (sort_values_desc A key df)
}.

Arguments sort_values_desc {_ A} key df.

(** [np.std(xs)]: population standard deviation. *)
Definition np_std `{Externals} (xs : list Q) : Q :=
  let m := np_mean xs in
  np_sqrt (np_mean (map (fun x => (x - m) * (x - m)) xs)).

(** [np.maximum(x, y)] on one element. *)
Definition np_maximum (x y : Q) : Q := if Qlt_bool x y then y else x.

Fixpoint insert_asc (x : Q) (xs : list Q) : list Q :=
  match xs with
  | [] => [x]
  | y :: rest => if Qle_bool x y then x :: xs else y :: insert_asc x rest
  end.

Definition sort_asc (xs : list Q) : list Q := fold_right insert_asc [] xs.

(** [np.percentile(xs, q)] with the default linear interpolation between the
    two closest ranks. *)
Definition np_percentile (xs : list Q) (q : Q) : Q :=
  let sorted := sort_asc xs in
  let virtual_index := (Qlen xs - 1) * (q / 100) in
  let lo := Z.to_nat (Qfloor virtual_index) in
  let hi := Nat.min (S lo) (List.length xs - 1) in
  let gamma := virtual_index - inject_Z (Z.of_nat lo) in
  let a := nth lo sorted 0 in
  let b := nth hi sorted 0 in
  a + (b - a) * gamma.

(* ------------------------------------------------------------------ *)
(** ** predictive_models.py: Monte Carlo completion probability *)

(** The returned dict; the fallback dict has no [median_velocity] and no
    [committed_points] key. *)
Record completion_prediction : Type := {
  probability : Q;
  expected_velocity : Q;
  median_velocity : option Q;
  confidence_interval_10 : Q;
  confidence_interval_90 : Q;
  simulated_velocities : list Q;
  committed_points : option Q
}.

(** [n_simulations] is a count; with [n_simulations = 0] the division below
    is 0 / 0, NaN in numpy and 0 in [Q]. *)
Definition predict_sprint_completion_probability `{Externals}
    (committed : Q) (historical_velocities : list Q) (n_simulations : nat)
    : completion_prediction :=
  if (List.length historical_velocities <? 2)%nat then
    {| probability := 0.5;
       expected_velocity := committed;
       median_velocity := None;
       confidence_interval_10 := committed;
       confidence_interval_90 := committed;
       simulated_velocities := [];
       committed_points := None |}
  else
    let mean_velocity := np_mean historical_velocities in
    let std_velocity := np_std historical_velocities in
    let drawn := np_random_normal mean_velocity std_velocity n_simulations in
    let simulated := map (fun v => np_maximum v 0) drawn in
    let successful_completions :=
      List.length (filter (fun v => Qle_bool committed v) simulated) in
    let prob := Qnat successful_completions / Qnat n_simulations in
    let percentile_10 := np_percentile simulated 10 in
    let percentile_50 := np_percentile simulated 50 in
    let percentile_90 := np_percentile simulated 90 in
    {| probability := prob;
       expected_velocity := mean_velocity;
       median_velocity := Some percentile_50;
       confidence_interval_10 := percentile_10;
       confidence_interval_90 := percentile_90;
       simulated_velocities := simulated;
       committed_points := Some committed |}.

(* ------------------------------------------------------------------ *)
(** ** predictive_models.py: initiative risk score *)

Record risk_factors : Type := {
  capacity_risk : Q;
  volatility_risk : Q;
  utilization_risk : Q;
  progress_risk : Q
}.

(** The returned dict.  For a terminal status ['factors'] is the empty dict
    and the three capacity keys are absent. *)
Record risk_assessment : Type := {
  risk_score : Q;
  risk_level : string;
  factors : option risk_factors;
  remaining_points : option Q;
  sprints_available : option Q;
  capacity_available : option Q;
  recommendation : string
}.

Definition calculate_initiative_risk_score
    (ini : initiative) (current_sprint avg_velocity velocity_std team_utilization : Q)
    : risk_assessment :=
  let total_points := dict_get (total_story_points ini) 0 in
  let completed_points := dict_get (completed_story_points ini) 0 in
  let target := dict_get (target_sprint ini) (current_sprint + 10) in
  let st := dict_get (status ini) "Backlog"%string in
  if isin st ["Completed"; "Deprioritized"]%string then
    {| risk_score := 0;
       risk_level := "None";
       factors := None;
       remaining_points := None;
       sprints_available := None;
       capacity_available := None;
       recommendation := "No action needed" |}
  else
    let remaining := py_max 0 (total_points - completed_points) in
    let sprints_avail := py_max 1 (target - current_sprint) in
    let capacity_avail := avg_velocity * sprints_avail in
    (* FACTOR 1: capacity risk *)
    let cap_risk :=
      if Qlt_bool 0 capacity_avail then
        let capacity_ratio := remaining / capacity_avail in
        py_min 1 (capacity_ratio / 0.8)
      else 1 in
    (* FACTOR 2: volatility risk *)
    let vol_risk :=
      if Qlt_bool 0 avg_velocity then
        let coefficient_of_variation := velocity_std / avg_velocity in
        py_min 1 (coefficient_of_variation / 0.15)
      else 0.5 in
    (* FACTOR 3: utilization risk *)
    let util_risk :=
      if Qlt_bool 1.05 team_utilization then 0.9
      else if Qlt_bool 0.95 team_utilization then 0.5
      else if Qlt_bool 0.70 team_utilization then 0.2
      else 0.4 in
    (* FACTOR 4: progress risk *)
    let prog_risk :=
      if Qlt_bool 0 total_points then
        let completion_pct := completed_points / total_points in
        if String.eqb st "Active" then
          if Qlt_bool sprints_avail 3 && Qlt_bool completion_pct 0.5 then 0.8
          else if Qlt_bool completion_pct 0.3 then 0.6
          else 0.2
        else 0.1
      else 0.5 in
    let score :=
      cap_risk * 0.35 + vol_risk * 0.25 + util_risk * 0.25 + prog_risk * 0.15 in
    let level_and_text : string * string :=
      if Qlt_bool score 0.3 then
        ("Low", "No action needed - on track for delivery")%string
      else if Qlt_bool score 0.6 then
        ("Medium",
         "Monitor closely - may need resource adjustment or scope review")%string
      else if Qlt_bool 0.7 cap_risk then
        ("High",
         "High risk - consider descoping, extending timeline, or adding resources")%string
      else
        ("High", "High risk - immediate intervention needed")%string in
    {| risk_score := score;
       risk_level := fst level_and_text;
       factors := Some {| capacity_risk := cap_risk;
                          volatility_risk := vol_risk;
                          utilization_risk := util_risk;
                          progress_risk := prog_risk |};
       remaining_points := Some remaining;
       sprints_available := Some sprints_avail;
       capacity_available := Some capacity_avail;
       recommendation := snd level_and_text |}.

(* ------------------------------------------------------------------ *)
(** ** predictive_models.py: velocity forecast *)

(** The returned dict; the short-history dict has no [avg_velocity] and no
    [trend_slope] key. *)
Record velocity_forecast : Type := {
  forecast : list Q;
  lower_bound : list Q;
  upper_bound : list Q;
  avg_velocity : option Q;
  trend_slope : option Q
}.

(** [range(1, n + 1)] as numbers. *)
Definition range_from_1 (n : Z) : list Q :=
  map (fun i => inject_Z (Z.of_nat i)) (seq 1 (Z.to_nat n)).

(** One turn of the forecasting loop: the value appended to [forecast]. *)
Definition predicted_velocity_at
    (slope intercept r_value moving_avg last_sprint i : Q) : Q :=
  let future_sprint := last_sprint + i in
  let trend_forecast := slope * future_sprint + intercept in
  let predicted :=
    if Qlt_bool 0.5 (Qabs r_value)
    then 0.7 * trend_forecast + 0.3 * moving_avg
    else 0.3 * trend_forecast + 0.7 * moving_avg in
  py_max 20 (py_min 60 predicted).

Definition forecast_velocity_next_n_sprints `{Externals}
    (sprints_df : list sprint_row) (n_sprints : Z) : result velocity_forecast :=
  let velocities := map velocity sprints_df in
  let sprint_numbers := map sprint_number sprints_df in
  if (List.length velocities <? 3)%nat then
    let avg := if (0 <? List.length velocities)%nat then np_mean velocities else 40 in
    Ok {| forecast := repeat avg (Z.to_nat n_sprints);
          lower_bound := repeat (avg * 0.8) (Z.to_nat n_sprints);
          upper_bound := repeat (avg * 1.2) (Z.to_nat n_sprints);
          avg_velocity := None;
          trend_slope := None |}
  else
    let recent_velocities := tail_n 5 velocities in
    let recent_sprint_nums := tail_n 5 sprint_numbers in
    fit <- stats_linregress recent_sprint_nums recent_velocities;;
    let '(slope, intercept, r_value) := fit in
    let moving_avg := np_mean recent_velocities in
    let std_velocity := np_std recent_velocities in
    let last_sprint := last sprint_numbers 0 in
    let predicted :=
      predicted_velocity_at slope intercept r_value moving_avg last_sprint in
    Ok {| forecast := map predicted (range_from_1 n_sprints);
          lower_bound :=
            map (fun i => py_max 15 (predicted i - 1.5 * std_velocity))
                (range_from_1 n_sprints);
          upper_bound :=
            map (fun i => py_min 70 (predicted i + 1.5 * std_velocity))
                (range_from_1 n_sprints);
          avg_velocity := Some moving_avg;
          trend_slope := Some slope |}.

(* ------------------------------------------------------------------ *)
(** ** utils/prioritization.py: priority score, rank and tier *)

Definition STRATEGIC_WEIGHTS : list (string * Q) :=
  [ ("Revenue Growth", 1.5);
    ("Customer Experience", 1.3);
    ("Cost Reduction", 1.2);
    ("Process Improvement", 1.0);
    ("Technical Excellence", 1.1) ]%string.

Definition ROI_MULTIPLIERS : list (string * Q) :=
  [ ("High", 1.3); ("Medium", 1.0); ("Low", 0.7) ]%string.

(** [table.get(key, default)] on a constant dict. *)
Fixpoint table_get (table : list (string * Q)) (key : string) (default : Q) : Q :=
  match table with
  | [] => default
  | (k, v) :: rest => if String.eqb key k then v else table_get rest key default
  end.

Definition calculate_priority_score (ini : initiative) : result Q :=
  impact <- dict_item "impact_score" (impact_score ini);;
  effort <- dict_item "effort_score" (effort_score ini);;
  if Qeq_bool effort 0 then Ok 0
  else
    let base_score := impact / effort in
    let category := dict_get (strategic_category ini) "Process Improvement"%string in
    let strategic_multiplier := table_get STRATEGIC_WEIGHTS category 1.0 in
    let roi := dict_get (roi_estimate ini) "Medium"%string in
    let roi_multiplier := table_get ROI_MULTIPLIERS roi 1.0 in
    Ok (base_score * strategic_multiplier * roi_multiplier).

(** A bin edge of [pd.cut]; [Inf] is [float('inf')]. *)
Inductive edge : Type :=
| Fin (q : Q)
| Inf.

Definition above_edge (e : edge) (x : Q) : bool :=
  match e with
  | Fin q => Qlt_bool q x
  | Inf => false
  end.

Definition upto_edge (x : Q) (e : edge) : bool :=
  match e with
  | Fin q => Qle_bool x q
  | Inf => true
  end.

(** [pd.cut(x, bins, labels)] on one value, with pandas' defaults
    [right=True, include_lowest=False]: bin [i] is the half-open interval
    (bins[i], bins[i+1]]; a value in no bin is missing ([None]). *)
Fixpoint pd_cut (bins : list edge) (labels : list string) (x : Q) : option string :=
  match bins, labels with
  | lo :: ((hi :: _) as rest), label :: labels' =>
      if above_edge lo x && upto_edge x hi then Some label
      else pd_cut rest labels' x
  | _, _ => None
  end.

Definition TIER_BINS : list edge := [Fin 0; Fin 1.5; Fin 2.5; Inf].
Definition TIER_LABELS : list string := ["Low"; "Medium"; "High"]%string.

(** The distinct values of a column, up to numeric equality. *)
Fixpoint distinct (xs : list Q) : list Q :=
  match xs with
  | [] => []
  | x :: rest => x :: filter (fun y => negb (Qeq_bool x y)) (distinct rest)
  end.

(** [rank(ascending=False, method='dense')] of one value of the column:
    one more than the number of distinct larger values. *)
Definition dense_rank_desc (column : list Q) (x : Q) : Z :=
  Z.of_nat (S (List.length (distinct (filter (fun y => Qlt_bool x y) column)))).

(** A row of the DataFrame returned by [add_priority_scores]. *)
Record scored_row : Type := {
  base_row : initiative_row;
  priority_score : Q;
  priority_rank : Z;
  priority_tier : option string
}.

Definition add_priority_scores (initiatives_df : list initiative_row)
    : result (list scored_row) :=
  scores <- mapM (fun r => calculate_priority_score (as_series r)) initiatives_df;;
  Ok (map (fun rs =>
             {| base_row := fst rs;
                priority_score := snd rs;
                priority_rank := dense_rank_desc scores (snd rs);
                priority_tier := pd_cut TIER_BINS TIER_LABELS (snd rs) |})
          (combine initiatives_df scores)).

(* ------------------------------------------------------------------ *)
(** ** utils/prioritization.py: quadrants and portfolio health *)

Definition categorize_quadrant (ini : initiative) : result string :=
  impact <- dict_item "impact_score" (impact_score ini);;
  effort <- dict_item "effort_score" (effort_score ini);;
  if Qlt_bool 6 impact && Qle_bool effort 5 then Ok "Quick Wins"%string
  else if Qlt_bool 6 impact && Qlt_bool 5 effort then Ok "Major Projects"%string
  else if Qle_bool impact 6 && Qle_bool effort 5 then Ok "Fill-ins"%string
  else Ok "Time Sinks"%string.

Record quadrant_row : Type := {
  classified_row : initiative_row;
  quadrant : string
}.

Definition add_quadrant_classification (initiatives_df : list initiative_row)
    : result (list quadrant_row) :=
  mapM (fun r =>
          q <- categorize_quadrant (as_series r);;
          Ok {| classified_row := r; quadrant := q |})
       initiatives_df.

Record portfolio_health : Type := {
  health_score : Q;
  quick_wins_ratio : Q;
  time_sinks_ratio : Q;
  completion_rate : Q;
  active_count : nat;
  completed_count : nat;
  deprioritized_count : nat
}.

Definition count_quadrant (q : string) (df : list quadrant_row) : nat :=
  List.length (filter (fun r => String.eqb (quadrant r) q) df).

Definition count_status (s : string) (df : list quadrant_row) : nat :=
  List.length (filter (fun r => String.eqb (col_status (classified_row r)) s) df).

Definition calculate_portfolio_health_score (initiatives_df : list initiative_row)
    : result portfolio_health :=
  df <- add_quadrant_classification initiatives_df;;
  let total_initiatives := List.length df in
  let quick_wins_count := count_quadrant "Quick Wins" df in
  let time_sinks_count := count_quadrant "Time Sinks" df in
  let qw_ratio :=
    if (0 <? total_initiatives)%nat
    then Qnat quick_wins_count / Qnat total_initiatives else 0 in
  let ts_ratio :=
    if (0 <? total_initiatives)%nat
    then Qnat time_sinks_count / Qnat total_initiatives else 0 in
  let completed := count_status "Completed" df in
  let active := count_status "Active" df in
  let deprioritized := count_status "Deprioritized" df in
  let compl_rate :=
    if (0 <? total_initiatives)%nat
    then Qnat completed / Qnat total_initiatives else 0 in
  let score :=
    ( qw_ratio * 30
      + (1 - ts_ratio) * 20
      + compl_rate * 30
      + (if (0 <? total_initiatives)%nat
         then (1 - Qnat deprioritized / Qnat total_initiatives) * 20
         else 0) ) * 100 in
  Ok {| health_score := score;
        quick_wins_ratio := qw_ratio * 100;
        time_sinks_ratio := ts_ratio * 100;
        completion_rate := compl_rate * 100;
        active_count := active;
        completed_count := completed;
        deprioritized_count := deprioritized |}.

(** The health formula in the words of the specification:
    100 x [0.30 quick_wins_ratio + 0.20 (1 - time_sinks_ratio)
           + 0.30 completion_rate + 0.20 (1 - deprioritized_ratio)]. *)
Definition spec_portfolio_health (qw ts cr dr : Q) : Q :=
  100 * (0.30 * qw + 0.20 * (1 - ts) + 0.30 * cr + 0.20 * (1 - dr)).

(* ------------------------------------------------------------------ *)
(** ** utils/prioritization.py: capacity allocation *)

(** A pending initiative with its [remaining_points] column. *)
Record pending_row : Type := {
  scored : scored_row;
  col_remaining_points : Q
}.

(** One dict appended to [allocated]. *)
Record allocation : Type := {
  alloc_initiative_id : string;
  alloc_name : string;
  points_allocated : Q;
  alloc_priority_score : Q;
  fits_in_capacity : bool
}.

(** The two variables the loop updates. *)
Record alloc_state : Type := {
  st_allocated : list allocation;
  st_capacity_used : Q
}.

Definition initial_state : alloc_state :=
  {| st_allocated := []; st_capacity_used := 0 |}.

(** How one turn of the loop ends: fall through to the next row, or [break]. *)
Inductive control : Type :=
| Next (st : alloc_state)
| Break (st : alloc_state).

Definition allocation_entry (p : pending_row) (points : Q) (fits : bool) : allocation :=
  {| alloc_initiative_id := col_initiative_id (base_row (scored p));
     alloc_name := col_name (base_row (scored p));
     points_allocated := points;
     alloc_priority_score := priority_score (scored p);
     fits_in_capacity := fits |}.

(** The body of [for _, initiative in pending_initiatives.iterrows()]. *)
Definition allocation_step (available_capacity : Q) (st : alloc_state) (p : pending_row)
    : control :=
  let remaining := col_remaining_points p in
  if Qle_bool (st_capacity_used st + remaining) available_capacity then
    Next {| st_allocated := st_allocated st ++ [allocation_entry p remaining true];
            st_capacity_used := st_capacity_used st + remaining |}
  else
    let points_available := available_capacity - st_capacity_used st in
    if Qlt_bool 0 points_available then
      Break {| st_allocated :=
                 st_allocated st ++ [allocation_entry p points_available false];
               st_capacity_used := available_capacity |}
    else Next st.

Fixpoint allocation_loop (available_capacity : Q) (st : alloc_state)
    (pending : list pending_row) : alloc_state :=
  match pending with
  | [] => st
  | p :: rest =>
      match allocation_step available_capacity st p with
      | Next st' => allocation_loop available_capacity st' rest
      | Break st' => st'
      end
  end.

Record allocation_plan : Type := {
  available_capacity : Q;
  capacity_used : Q;
  capacity_utilization : Q;
  allocated_initiatives : list allocation;
  initiatives_fully_allocated : nat
}.

(** The rows the loop walks: pending initiatives, scored, sorted by priority
    and extended with [remaining_points]. *)
Definition pending_initiatives `{Externals} (initiatives_df : list initiative_row)
    : result (list pending_row) :=
  let pending :=
    filter (fun r => isin (col_status r) ["Active"; "Backlog"]%string) initiatives_df in
  pending <- add_priority_scores pending;;
  let pending := sort_values_desc priority_score pending in
  Ok (map (fun s =>
             {| scored := s;
                col_remaining_points :=
                  col_total_story_points (base_row s)
                  - col_completed_story_points (base_row s) |})
          pending).

Definition simulate_capacity_allocation `{Externals}
    (initiatives_df : list initiative_row) (sprints_df : list sprint_row)
    (future_sprints : Q) : result allocation_plan :=
  let avg := np_mean (tail_n 3 (map velocity sprints_df)) in
  let available := avg * future_sprints in
  pending <- pending_initiatives initiatives_df;;
  let final := allocation_loop available initial_state pending in
  Ok {| available_capacity := available;
        capacity_used := st_capacity_used final;
        capacity_utilization :=
          if Qlt_bool 0 available
          then st_capacity_used final / available * 100 else 0;
        allocated_initiatives := st_allocated final;
        initiatives_fully_allocated :=
          List.length (filter fits_in_capacity (st_allocated final)) |}.

(** The values [capacity_used] takes: before the loop and after each row
    that is processed (rows after a [break] are not processed). *)
Fixpoint capacity_used_trace (available_capacity : Q) (st : alloc_state)
    (pending : list pending_row) : list Q :=
  st_capacity_used st ::
  match pending with
  | [] => []
  | p :: rest =>
      match allocation_step available_capacity st p with
      | Next st' => capacity_used_trace available_capacity st' rest
      | Break st' => [st_capacity_used st']
      end
  end.

(* ------------------------------------------------------------------ *)
(** ** utils/prioritization.py: quick wins, time sinks, composition, funnel *)

(** [df.head(n)]: the first [n] rows, or all but the last [-n] rows when
    [n] is negative. *)
Definition head {A : Type} (n : Z) (df : list A) : list A :=
  if (0 <=? n)%Z then firstn (Z.to_nat n) df
  else firstn (List.length df - Z.to_nat (- n)) df.

(** [add_quadrant_classification] applied to a DataFrame that carries more
    columns than [initiatives_df]; [series] is the Series of one row, and the
    new [quadrant] column is the second component. *)
Definition add_quadrant_column {A : Type} (series : A -> initiative) (df : list A)
    : result (list (A * string)) :=
  mapM (fun r => q <- categorize_quadrant (series r);; Ok (r, q)) df.

Definition get_quick_wins `{Externals} (initiatives_df : list initiative_row)
    (limit : Z) : result (list (scored_row * string)) :=
  df <- add_priority_scores initiatives_df;;
  df <- add_quadrant_column (fun s => as_series (base_row s)) df;;
  let quick_wins := filter (fun r => String.eqb (snd r) "Quick Wins") df in
  let quick_wins := sort_values_desc (fun r => priority_score (fst r)) quick_wins in
  Ok (head limit quick_wins).

Definition get_time_sinks `{Externals} (initiatives_df : list initiative_row)
    : result (list quadrant_row) :=
  df <- add_quadrant_classification initiatives_df;;
  let time_sinks := filter (fun r => String.eqb (quadrant r) "Time Sinks") df in
  Ok (sort_values_desc (fun r => col_effort_score (classified_row r)) time_sinks).

(** Adding one row to the groups of a [groupby]: groups are kept in
    ascending key order, rows inside a group in DataFrame order. *)
Fixpoint group_insert {A : Type} (k : string) (x : A) (groups : list (string * list A))
    : list (string * list A) :=
  match groups with
  | [] => [(k, [x])]
  | (k', xs) :: rest =>
      if String.eqb k k' then (k', x :: xs) :: rest
      else if String.ltb k k' then (k, [x]) :: groups
      else (k', xs) :: group_insert k x rest
  end.

(** [df.groupby(key)]: one group per distinct key, sorted by key. *)
Definition groupby {A : Type} (key : A -> string) (df : list A)
    : list (string * list A) :=
  fold_right (fun x groups => group_insert (key x) x groups) [] df.

(** A row of [composition] after [.agg(...)], [reset_index()] and the
    renaming of the columns. *)
Record quadrant_aggregate : Type := {
  agg_quadrant : string;
  agg_initiative_count : nat;
  agg_total_points : Q;
  agg_avg_impact : Q;
  agg_avg_effort : Q
}.

(** A row of the returned [composition]. *)
Record composition_row : Type := {
  aggregate : quadrant_aggregate;
  initiative_pct : Q;
  points_pct : Q
}.

Definition get_portfolio_composition (initiatives_df : list initiative_row)
    : result (list composition_row) :=
  initiatives_with_quadrants <- add_quadrant_classification initiatives_df;;
  let composition :=
    map (fun g =>
           {| agg_quadrant := fst g;
              agg_initiative_count := List.length (snd g);
              agg_total_points :=
                Qsum (map (fun r => col_total_story_points (classified_row r)) (snd g));
              agg_avg_impact :=
                np_mean (map (fun r => col_impact_score (classified_row r)) (snd g));
              agg_avg_effort :=
                np_mean (map (fun r => col_effort_score (classified_row r)) (snd g)) |})
        (groupby quadrant initiatives_with_quadrants) in
  let total_initiatives := list_sum (map agg_initiative_count composition) in
  let total_points := Qsum (map agg_total_points composition) in
  Ok (map (fun c =>
             {| aggregate := c;
                initiative_pct :=
                  if (0 <? total_initiatives)%nat
                  then Qnat (agg_initiative_count c) / Qnat total_initiatives * 100
                  else 0;
                points_pct :=
                  if Qlt_bool 0 total_points
                  then agg_total_points c / total_points * 100
                  else 0 |})
          composition).

(** [initiatives_df['status'].value_counts().to_dict().get(s, 0)] *)
Definition status_count (s : string) (initiatives_df : list initiative_row) : nat :=
  List.length (filter (fun r => String.eqb (col_status r) s) initiatives_df).

Record funnel_stage : Type := {
  stage : string;
  stage_count : nat;
  percentage : Q
}.

Definition create_intake_funnel_data (initiatives_df : list initiative_row)
    : list funnel_stage :=
  let total := List.length initiatives_df in
  let share (s : string) : Q :=
    if (0 <? total)%nat
    then Qnat (status_count s initiatives_df) / Qnat total * 100 else 0 in
  [ {| stage := "Submitted"; stage_count := total; percentage := 100 |};
    {| stage := "Backlog";
       stage_count := status_count "Backlog" initiatives_df;
       percentage := share "Backlog"%string |};
    {| stage := "Active";
       stage_count := status_count "Active" initiatives_df;
       percentage := share "Active"%string |};
    {| stage := "Completed";
       stage_count := status_count "Completed" initiatives_df;
       percentage := share "Completed"%string |} ].

(* ------------------------------------------------------------------ *)
(** ** predictive_models.py: risk of all initiatives *)

(** One dict appended to [risk_assessments]. *)
Record risk_row : Type := {
  ra_initiative_id : string;
  ra_name : string;
  ra_status : string;
  ra_risk_score : Q;
  ra_risk_level : string;
  ra_capacity_risk : Q;
  ra_volatility_risk : Q;
  ra_utilization_risk : Q;
  ra_progress_risk : Q;
  ra_remaining_points : Q;
  ra_sprints_available : Q;
  ra_recommendation : string
}.

(** Building that dict reads [risk['factors']['capacity_risk']] and its
    siblings, and [risk['remaining_points']], [risk['sprints_available']]:
    each raises [KeyError] on the dict returned for a terminal initiative. *)
Definition risk_row_of (ini : initiative_row) (risk : risk_assessment)
    : result risk_row :=
  match factors risk with
  | None => Raise (KeyError "capacity_risk")
  | Some f =>
      remaining <- dict_item "remaining_points" (remaining_points risk);;
      sprints_avail <- dict_item "sprints_available" (sprints_available risk);;
      Ok {| ra_initiative_id := col_initiative_id ini;
            ra_name := col_name ini;
            ra_status := col_status ini;
            ra_risk_score := risk_score risk;
            ra_risk_level := risk_level risk;
            ra_capacity_risk := capacity_risk f;
            ra_volatility_risk := volatility_risk f;
            ra_utilization_risk := utilization_risk f;
            ra_progress_risk := progress_risk f;
            ra_remaining_points := remaining;
            ra_sprints_available := sprints_avail;
            ra_recommendation := recommendation risk |}
  end.

(** [pd.DataFrame(risk_assessments)] of an empty list has no columns, so
    [sort_values('risk_score')] raises [KeyError]. *)
Definition assess_all_initiatives_risk `{Externals}
    (initiatives_df : list initiative_row) (current_sprint : Q)
    (sprints_df : list sprint_row) (team_utilization : Q)
    : result (list risk_row) :=
  let recent_velocities := map velocity (tail_n 5 sprints_df) in
  let avg_vel := np_mean recent_velocities in
  let velocity_std := np_std recent_velocities in
  let df :=
    filter (fun r => isin (col_status r) ["Active"; "Backlog"]%string) initiatives_df in
  risk_assessments <-
    mapM (fun ini =>
            risk_row_of ini
              (calculate_initiative_risk_score
                 (as_series ini) current_sprint avg_vel velocity_std team_utilization))
         df;;
  match risk_assessments with
  | [] => Raise (KeyError "risk_score")
  | _ :: _ => Ok (sort_values_desc ra_risk_score risk_assessments)
  end.

(* ------------------------------------------------------------------ *)
(** ** utils/metrics.py *)

(** A sprint as a Series or dict: any key may be missing. *)
Record sprint_data : Type := {
  sd_avg_estimation_accuracy : option Q;
  sd_completion_rate : option Q;
  sd_stories_count : option Q;
  sd_stories_with_blockers : option Q;
  sd_team_capacity : option Q;
  sd_committed_points : option Q;
  sd_completed_points : option Q
}.

(** The dict returned by [calculate_sprint_health_score]. *)
Record sprint_health : Type := {
  sh_health_score : Q;
  sh_velocity_consistency : Q;
  sh_estimation_accuracy : Q;
  sh_completion_rate : Q;
  sh_blocker_impact : Q
}.

Definition calculate_sprint_health_score `{Externals}
    (sprint : sprint_data) (sprints_history : list sprint_row) : result sprint_health :=
  let velocities := map velocity sprints_history in
  let avg_vel := np_mean velocities in
  let velocity_std := np_std velocities in
  let velocity_consistency :=
    if Qlt_bool 0 avg_vel then 1 - py_min (velocity_std / avg_vel) 1 else 0 in
  let velocity_consistency := py_max 0 velocity_consistency in
  let estimation_accuracy := dict_get (sd_avg_estimation_accuracy sprint) 0.85 in
  rate <- dict_item "completion_rate" (sd_completion_rate sprint);;
  let rate := py_min 1 rate in
  let total_stories := dict_get (sd_stories_count sprint) 1 in
  let stories_with_blockers := dict_get (sd_stories_with_blockers sprint) 0 in
  let blocker_rate :=
    if Qlt_bool 0 total_stories then stories_with_blockers / total_stories else 0 in
  let score :=
    ( velocity_consistency * 0.30
      + estimation_accuracy * 0.25
      + rate * 0.25
      + (1 - blocker_rate) * 0.20 ) * 100 in
  Ok {| sh_health_score := score;
        sh_velocity_consistency := velocity_consistency * 100;
        sh_estimation_accuracy := estimation_accuracy * 100;
        sh_completion_rate := rate * 100;
        sh_blocker_impact := (1 - blocker_rate) * 100 |}.

Definition calculate_predictability_score `{Externals} (sprints_df : list sprint_row) : Q :=
  let velocities := map velocity sprints_df in
  let avg_vel := np_mean velocities in
  let velocity_std := np_std velocities in
  if Qeq_bool avg_vel 0 then 0
  else
    let cv := velocity_std / avg_vel in
    let predictability := 1 - py_min cv 1 in
    py_max 0 predictability.

(** The dict returned by [calculate_capacity_utilization]. *)
Record utilization : Type := {
  commitment_utilization : Q;
  actual_utilization : Q;
  utilization_status : string;
  utilization_health : string
}.

Definition calculate_capacity_utilization (sprint : sprint_data) : result utilization :=
  capacity <- dict_item "team_capacity" (sd_team_capacity sprint);;
  committed <- dict_item "committed_points" (sd_committed_points sprint);;
  completed <- dict_item "completed_points" (sd_completed_points sprint);;
  let commitment := if Qlt_bool 0 capacity then committed / capacity * 100 else 0 in
  let actual := if Qlt_bool 0 capacity then completed / capacity * 100 else 0 in
  let status_and_health : string * string :=
    if Qlt_bool 105 actual then ("Over-utilized", "warning")%string
    else if Qlt_bool 95 actual then ("At capacity", "good")%string
    else if Qlt_bool 70 actual then ("Healthy", "good")%string
    else ("Under-utilized", "warning")%string in
  Ok {| commitment_utilization := commitment;
        actual_utilization := actual;
        utilization_status := fst status_and_health;
        utilization_health := snd status_and_health |}.

(** A row of [stories_df], restricted to the columns the metrics below read. *)
Record story_row : Type := {
  col_story_type : string;
  col_story_status : string;
  col_num_blockers : Q;
  col_cycle_time_days : Q
}.

Definition calculate_bug_ratio (stories_df : list story_row) : Q :=
  let total_stories := List.length stories_df in
  let bug_stories :=
    List.length (filter (fun s => String.eqb (col_story_type s) "Bug") stories_df) in
  if (0 <? total_stories)%nat then Qnat bug_stories / Qnat total_stories else 0.

Definition calculate_carryover_rate (stories_df : list story_row) : Q :=
  let total_stories := List.length stories_df in
  let carried_over :=
    List.length
      (filter (fun s => String.eqb (col_story_status s) "Carried Over") stories_df) in
  if (0 <? total_stories)%nat then Qnat carried_over / Qnat total_stories else 0.




(* ------------------------------------------------------------------ *)
(** ** Vocabulary of the statements *)

Definition terminal (ini : initiative) : Prop :=
  status ini = Some "Completed"%string \/ status ini = Some "Deprioritized"%string.

(** The mean used by the short-history branch: [np.mean] of the velocity
    column, or 40 when the DataFrame is empty. *)
Definition short_history_mean (sprints_df : list sprint_row) : Q :=
  match sprints_df with
  | [] => 40
  | _ :: _ => np_mean (map velocity sprints_df)
  end.

(** The initiative [calculate_initiative_risk_score] works on once its four
    [.get] defaults are filled in. *)
Definition with_risk_defaults (current_sprint : Q) (ini : initiative) : initiative := {|
  initiative_id := initiative_id ini;
  name := name ini;
  impact_score := impact_score ini;
  effort_score := effort_score ini;
  strategic_category := strategic_category ini;
  roi_estimate := roi_estimate ini;
  status := Some (dict_get (status ini) "Backlog"%string);
  total_story_points := Some (dict_get (total_story_points ini) 0);
  completed_story_points := Some (dict_get (completed_story_points ini) 0);
  target_sprint := Some (dict_get (target_sprint ini) (current_sprint + 10))
|}.

(** The initiative [calculate_priority_score] works on once its two [.get]
    defaults are filled in. *)
Definition with_priority_defaults (ini : initiative) : initiative := {|
  initiative_id := initiative_id ini;
  name := name ini;
  impact_score := impact_score ini;
  effort_score := effort_score ini;
  strategic_category :=
    Some (dict_get (strategic_category ini) "Process Improvement"%string);
  roi_estimate := Some (dict_get (roi_estimate ini) "Medium"%string);
  status := status ini;
  total_story_points := total_story_points ini;
  completed_story_points := completed_story_points ini;
  target_sprint := target_sprint ini
|}.

(** Sum of [points_allocated] over an allocation list. *)
Definition total_points_allocated (allocs : list allocation) : Q :=
  fold_right (fun a acc => points_allocated a + acc) 0 allocs.

(** What the loop maintains: the budget is respected and [capacity_used] is
    the sum of the points handed out. *)
Definition within_budget (available : Q) (st : alloc_state) : Prop :=
  st_capacity_used st <= available /\
  total_points_allocated (st_allocated st) == st_capacity_used st.

Definition state_of (c : control) : alloc_state :=
  match c with
  | Next st => st
  | Break st => st
  end.

Fixpoint nondecreasing (xs : list Q) : bool :=
  match xs with
  | a :: ((b :: _) as rest) => Qle_bool a b && nondecreasing rest
  | _ => true
  end.

(** Every row of [pre] fits entirely when the walk reaches it, starting from
    [used] points already handed out. *)
Fixpoint all_fit (available used : Q) (pre : list pending_row) : Prop :=
  match pre with
  | [] => True
  | p :: rest =>
      used + col_remaining_points p <= available /\
      all_fit available (used + col_remaining_points p) rest
  end.

(** [capacity_used] after the rows of [pre] have been fully allocated. *)
Definition used_after (used : Q) (pre : list pending_row) : Q :=
  fold_left (fun u p => u + col_remaining_points p) pre used.

(** The entries of fully allocated rows. *)
Definition full_entries (pre : list pending_row) : list allocation :=
  map (fun p => allocation_entry p (col_remaining_points p) true) pre.

(** The initiatives [assess_all_initiatives_risk] and
    [simulate_capacity_allocation] keep: Active or Backlog. *)
Definition pending_status (r : initiative_row) : bool :=
  isin (col_status r) ["Active"; "Backlog"]%string.

(** A row classified from its impact and effort columns. *)
Definition classified_from (r : initiative_row) (c : quadrant_row) : Prop :=
  classified_row c = r /\
  (quadrant c = "Quick Wins"%string <->
   6 < col_impact_score r /\ col_effort_score r <= 5) /\
  (quadrant c = "Major Projects"%string <->
   6 < col_impact_score r /\ 5 < col_effort_score r) /\
  (quadrant c = "Fill-ins"%string <->
   col_impact_score r <= 6 /\ col_effort_score r <= 5) /\
  (quadrant c = "Time Sinks"%string <->
   col_impact_score r <= 6 /\ 5 < col_effort_score r).

(** Groups in strictly ascending key order. *)
Definition keys_ascending {A : Type} (groups : list (string * list A)) : Prop :=
  StronglySorted (fun a b => String.ltb (fst a) (fst b) = true) groups.

Definition fully_allocated (allocs : list allocation) : Prop :=
  Forall (fun a => fits_in_capacity a = true) allocs.

(** Every entry is a full allocation, except possibly the last one, a
    partial allocation of a positive number of points that uses the budget
    up. *)
Definition partial_only_last (available : Q) (st : alloc_state) : Prop :=
  fully_allocated (st_allocated st) \/
  exists pre last,
    st_allocated st = pre ++ [last] /\
    fully_allocated pre /\
    fits_in_capacity last = false /\
    0 < points_allocated last /\
    st_capacity_used st = available.

Definition descending (xs : list Q) : Prop :=
  StronglySorted (fun a b => b <= a) xs.

(* ------------------------------------------------------------------ *)
(** ** Example inputs *)

Definition sample_initiative : initiative := {|
  initiative_id := Some "INIT-001"%string;
  name := Some "Checkout redesign"%string;
  impact_score := Some 9;
  effort_score := Some 3;
  strategic_category := Some "Revenue Growth"%string;
  roi_estimate := Some "High"%string;
  status := Some "Active"%string;
  total_story_points := Some 50;
  completed_story_points := Some 10;
  target_sprint := Some 5
|}.

(** [sample_initiative] with the [total_story_points] key removed. *)
Definition initiative_without_total : initiative := {|
  initiative_id := Some "INIT-001"%string;
  name := Some "Checkout redesign"%string;
  impact_score := Some 9;
  effort_score := Some 3;
  strategic_category := Some "Revenue Growth"%string;
  roi_estimate := Some "High"%string;
  status := Some "Active"%string;
  total_story_points := None;
  completed_story_points := Some 10;
  target_sprint := Some 5
|}.

Definition initiative_without_effort : initiative := {|
  initiative_id := Some "INIT-002"%string;
  name := None;
  impact_score := Some 7;
  effort_score := None;
  strategic_category := None;
  roi_estimate := None;
  status := None;
  total_story_points := None;
  completed_story_points := None;
  target_sprint := None
|}.

Definition two_sprints : list sprint_row :=
  [ {| sprint_number := 1; velocity := 30 |};
    {| sprint_number := 2; velocity := 32 |} ].

Definition five_sprints : list sprint_row :=
  [ {| sprint_number := 1; velocity := 30 |};
    {| sprint_number := 2; velocity := 32 |};
    {| sprint_number := 3; velocity := 31 |};
    {| sprint_number := 4; velocity := 33 |};
    {| sprint_number := 5; velocity := 34 |} ].

Definition empty_forecast : velocity_forecast :=
  {| forecast := []; lower_bound := []; upper_bound := [];
     avg_velocity := None; trend_slope := None |}.

Definition example_row (id : string) (impact effort : Q) (st : string)
    (total completed : Q) : initiative_row := {|
  col_initiative_id := id;
  col_name := id;
  col_impact_score := impact;
  col_effort_score := effort;
  col_strategic_category := "Revenue Growth";
  col_roi_estimate := "High";
  col_status := st;
  col_total_story_points := total;
  col_completed_story_points := completed;
  col_target_sprint := 5
|}.

(** A portfolio of one initiative: a completed quick win. *)
Definition one_completed_quick_win : list initiative_row :=
  [ example_row "INIT-001" 9 3 "Completed" 20 20 ].

(** An initiative with [effort_score = 0]. *)
Definition effortless_portfolio : list initiative_row :=
  [ example_row "INIT-007" 9 0 "Backlog" 20 0 ].

Definition mixed_portfolio : list initiative_row :=
  [ example_row "INIT-001" 9 3 "Active" 20 5;
    example_row "INIT-002" 2 8 "Backlog" 30 0;
    example_row "INIT-007" 9 0 "Backlog" 20 0 ].

Definition one_sprint_of_ten : list sprint_row :=
  [ {| sprint_number := 1; velocity := 10 |} ].

(** Two active initiatives; the second has 15 of its 10 points completed. *)
Definition overcompleted_portfolio : list initiative_row :=
  [ example_row "INIT-001" 9 3 "Active" 8 0;
    example_row "INIT-002" 6 3 "Active" 10 15 ].

(** A budget of 10 points: the first initiative uses it up exactly, the
    second needs 5 more, the third has nothing left to do. *)
Definition exhausted_budget_portfolio : list initiative_row :=
  [ example_row "INIT-001" 9 3 "Active" 10 0;
    example_row "INIT-002" 8 3 "Active" 5 0;
    example_row "INIT-003" 7 3 "Backlog" 7 7 ].

(** A pending row as the loop sees it. *)
Definition example_pending (id : string) (impact total completed : Q) : pending_row :=
  let r := example_row id impact 3 "Active" total completed in
  {| scored := {| base_row := r;
                  priority_score := impact / 3 * 1.5 * 1.3;
                  priority_rank := 1;
                  priority_tier := Some "High"%string |};
     col_remaining_points := total - completed |}.

Definition row_six : pending_row := example_pending "INIT-001" 9 6 0.
Definition row_seven : pending_row := example_pending "INIT-002" 8 7 0.
Definition row_two : pending_row := example_pending "INIT-003" 7 2 0.




(** A sprint that completed 38 of 40 committed points with a capacity of
    42. *)
Definition sample_sprint : sprint_data := {|
  sd_avg_estimation_accuracy := Some 0.8;
  sd_completion_rate := Some 0.95;
  sd_stories_count := Some 12;
  sd_stories_with_blockers := Some 3;
  sd_team_capacity := Some 42;
  sd_committed_points := Some 40;
  sd_completed_points := Some 38
|}.


(* ------------------------------------------------------------------ *)
(** ** A computable instance of the library calls *)

(** Square root to four decimal places. *)
Definition reference_sqrt (x : Q) : Q :=
  Z.sqrt (Qnum x * Z.pos (Qden x) * 100000000) # (Qden x * 10000).

(** A fixed, seed-like table of deviates scaled by [scale] around [loc]. *)
Definition reference_normal (loc scale : Q) (size : nat) : list Q :=
  map (fun i => loc + scale * (((Z.of_nat i * 37) mod 61 - 30) # 15)) (seq 0 size).

(** Ordinary least squares; [ValueError] when all [xs] are identical. *)
Definition reference_linregress (xs ys : list Q) : result (Q * Q * Q) :=
  let xmean := np_mean xs in
  let ymean := np_mean ys in
  let ssxm := np_mean (map (fun x => (x - xmean) * (x - xmean)) xs) in
  let ssym := np_mean (map (fun y => (y - ymean) * (y - ymean)) ys) in
  let ssxym :=
    np_mean (map (fun xy => (fst xy - xmean) * (snd xy - ymean)) (combine xs ys)) in
  if Qeq_bool ssxm 0 then Raise ValueError
  else
    let slope := ssxym / ssxm in
    let intercept := ymean - slope * xmean in
    let r := if Qeq_bool ssym 0 then 0
             else py_max (-1) (py_min 1 (ssxym / reference_sqrt (ssxm * ssym))) in
    Ok (Qred slope, Qred intercept, Qred r).

Fixpoint insert_desc {A : Type} (key : A -> Q) (x : A) (xs : list A) : list A :=
  match xs with
  | [] => [x]
  | y :: rest =>
      if Qle_bool (key y) (key x) then x :: xs else y :: insert_desc key x rest
  end.

(** Stable insertion sort, largest key first. *)
Definition reference_sort_desc (A : Type) (key : A -> Q) (xs : list A) : list A :=
  fold_right (insert_desc key) [] xs.

Lemma reference_sqrt_nonneg : forall x, 0 <= reference_sqrt x.
Proof.
  intro x. unfold reference_sqrt, Qle. simpl.
  rewrite Z.mul_1_r. apply Z.sqrt_nonneg.
Qed.

Lemma reference_normal_length :
  forall loc scale size, List.length (reference_normal loc scale size) = size.
Proof.
  intros. unfold reference_normal. now rewrite length_map, length_seq.
Qed.

Lemma insert_desc_perm {A : Type} (key : A -> Q) (x : A) (xs : list A) :
  Permutation (x :: xs) (insert_desc key x xs).
Proof.
  induction xs as [|y rest IH]; simpl.
  - apply Permutation_refl.
  - destruct (Qle_bool (key y) (key x)).
    + apply Permutation_refl.
    + eapply perm_trans; [apply perm_swap|]. now apply perm_skip.
Qed.

Lemma reference_sort_desc_perm :
  forall A key (df : list A), Permutation df (reference_sort_desc A key df).
Proof.
  intros A key df. induction df as [|x rest IH]; simpl.
  - apply perm_nil.
  - eapply perm_trans; [apply perm_skip, IH|]. apply insert_desc_perm.
Qed.

Lemma insert_desc_hdrel {A : Type} (key : A -> Q) (a x : A) (xs : list A) :
  key x <= key a ->
  HdRel (fun a b => key b <= key a) a xs ->
  HdRel (fun a b => key b <= key a) a (insert_desc key x xs).
Proof.
  intros Hxa Hhd. destruct xs as [|y rest]; simpl.
  - now constructor.
  - destruct (Qle_bool (key y) (key x)); constructor; auto.
    now inversion Hhd.
Qed.

Lemma insert_desc_sorted {A : Type} (key : A -> Q) (x : A) (xs : list A) :
  Sorted (fun a b => key b <= key a) xs ->
  Sorted (fun a b => key b <= key a) (insert_desc key x xs).
Proof.
  induction 1 as [|y rest Hs IH Hhd]; simpl.
  - repeat constructor.
  - destruct (Qle_bool (key y) (key x)) eqn:E.
    + constructor; [now constructor|].
      constructor. now apply Qle_bool_iff.
    + constructor; [exact IH|].
      apply insert_desc_hdrel; [|exact Hhd].
      destruct (Qlt_le_dec (key y) (key x)) as [Hlt|Hle]; [|exact Hle].
      apply Qlt_le_weak in Hlt. apply Qle_bool_iff in Hlt. congruence.
Qed.

Lemma reference_sort_desc_sorted :
  forall A key (df : list A),
    Sorted (fun a b => key b <= key a) (reference_sort_desc A key df).
Proof.
  intros A key df. induction df as [|x rest IH]; simpl.
  - constructor.
  - now apply insert_desc_sorted.
Qed.

Definition reference_externals : Externals := {|
  np_sqrt := reference_sqrt;
  np_sqrt_nonneg := reference_sqrt_nonneg;
  np_random_normal := reference_normal;
  np_random_normal_length := reference_normal_length;
  stats_linregress := reference_linregress;
  sort_values_desc := reference_sort_desc;
  sort_values_desc_perm := reference_sort_desc_perm;
  sort_values_desc_sorted := reference_sort_desc_sorted
|}.

(** The forecast the reference instance gives for [five_sprints] over three
    sprints. *)
Definition five_sprints_forecast : velocity_forecast :=
  Eval vm_compute in
    match @forecast_velocity_next_n_sprints reference_externals five_sprints 3 with
    | Ok f => f
    | Raise _ => empty_forecast
    end.

(** The health of [sample_sprint] against [five_sprints] under the reference
    instance. *)
Definition sample_sprint_health : sprint_health :=
  Eval vm_compute in
    match @calculate_sprint_health_score reference_externals sample_sprint five_sprints
    with
    | Ok h => h
    | Raise _ => {| sh_health_score := 0; sh_velocity_consistency := 0;
                    sh_estimation_accuracy := 0; sh_completion_rate := 0;
                    sh_blocker_impact := 0 |}
    end.

(* ------------------------------------------------------------------ *)
(** ** Comparisons, [max] and [min] *)

Lemma Qlt_bool_true (x y : Q) : Qlt_bool x y = true <-> x < y.
Proof.
  unfold Qlt_bool. rewrite negb_true_iff. split.
  - intro E. apply Qnot_le_lt. intro Hle. apply Qle_bool_iff in Hle. congruence.
  - intro Hlt. destruct (Qle_bool y x) eqn:E; [|reflexivity].
    apply Qle_bool_iff in E. exfalso. exact (Qlt_not_le _ _ Hlt E).
Qed.

Lemma Qlt_bool_false (x y : Q) : Qlt_bool x y = false <-> y <= x.
Proof.
  unfold Qlt_bool. rewrite negb_false_iff. apply Qle_bool_iff.
Qed.

Lemma Qle_bool_false (x y : Q) : Qle_bool x y = false <-> y < x.
Proof.
  split.
  - intro E. apply Qnot_le_lt. intro Hle. apply Qle_bool_iff in Hle. congruence.
  - intro Hlt. destruct (Qle_bool x y) eqn:E; [|reflexivity].
    apply Qle_bool_iff in E. exfalso. exact (Qlt_not_le _ _ Hlt E).
Qed.

Lemma py_max_lower (a b : Q) : a <= py_max a b.
Proof.
  unfold py_max. destruct (Qlt_bool a b) eqn:E.
  - apply Qlt_bool_true in E. now apply Qlt_le_weak.
  - apply Qle_refl.
Qed.

Lemma py_max_upper (a b c : Q) : a <= c -> b <= c -> py_max a b <= c.
Proof. intros Ha Hb. unfold py_max. now destruct (Qlt_bool a b). Qed.

Lemma py_max_ge_right (a b : Q) : b <= py_max a b.
Proof.
  unfold py_max. destruct (Qlt_bool a b) eqn:E.
  - apply Qle_refl.
  - now apply Qlt_bool_false in E.
Qed.

Lemma py_min_upper (a b : Q) : py_min a b <= a.
Proof.
  unfold py_min. destruct (Qlt_bool b a) eqn:E.
  - apply Qlt_bool_true in E. now apply Qlt_le_weak.
  - apply Qle_refl.
Qed.

Lemma py_min_le_right (a b : Q) : py_min a b <= b.
Proof.
  unfold py_min. destruct (Qlt_bool b a) eqn:E.
  - apply Qle_refl.
  - now apply Qlt_bool_false in E.
Qed.

Lemma py_min_lower (a b c : Q) : c <= a -> c <= b -> c <= py_min a b.
Proof. intros Ha Hb. unfold py_min. now destruct (Qlt_bool b a). Qed.

Lemma Qdiv_nonneg (a b : Q) : 0 <= a -> 0 < b -> 0 <= a / b.
Proof.
  intros Ha Hb. apply Qle_shift_div_l; [exact Hb|]. now rewrite Qmult_0_l.
Qed.

(** A ratio capped by [min(1.0, ...)] is a number of the unit interval. *)
Lemma capped_ratio_in_unit (x : Q) : 0 <= x -> 0 <= py_min 1 x <= 1.
Proof.
  intro Hx. split.
  - apply py_min_lower; [lra | exact Hx].
  - apply py_min_upper.
Qed.

(* ------------------------------------------------------------------ *)
(** ** Risk score *)

Lemma non_terminal_isin (ini : initiative) :
  ~ terminal ini ->
  isin (dict_get (status ini) "Backlog"%string) ["Completed"; "Deprioritized"]%string
  = false.
Proof.
  unfold terminal, isin. intro Hnt.
  destruct (status ini) as [s|]; simpl; [|reflexivity].
  destruct (String.eqb s "Completed") eqn:E1.
  - apply String.eqb_eq in E1. subst. exfalso. apply Hnt. now left.
  - destruct (String.eqb s "Deprioritized") eqn:E2; [|reflexivity].
    apply String.eqb_eq in E2. subst. exfalso. apply Hnt. now right.
Qed.

(** C4. For every initiative whose status is neither Completed nor
    Deprioritized (an absent status counts as Backlog) and every
    [velocity_std >= 0], [calculate_initiative_risk_score] returns the four
    sub-factors [capacity_risk], [volatility_risk], [utilization_risk] and
    [progress_risk], each within [0,1], and a composite [risk_score] within
    [0,1].  This holds for every [current_sprint], [team_utilization] and
    [avg_velocity]; the bound [avg_velocity >= 0] of the specification is not
    needed. *)
Theorem risk_factors_and_score_in_unit_interval :
  forall (ini : initiative) (current_sprint avg_vel velocity_std team_utilization : Q),
    ~ terminal ini ->
    0 <= velocity_std ->
    let r := calculate_initiative_risk_score
               ini current_sprint avg_vel velocity_std team_utilization in
    exists f,
      factors r = Some f /\
      0 <= capacity_risk f <= 1 /\
      0 <= volatility_risk f <= 1 /\
      0 <= utilization_risk f <= 1 /\
      0 <= progress_risk f <= 1 /\
      0 <= risk_score r <= 1.
Proof.
  intros ini current_sprint avg_vel velocity_std team_utilization Hnt Hstd r.
  subst r. unfold calculate_initiative_risk_score.
  rewrite (non_terminal_isin ini Hnt). cbv zeta.
  eexists. split; [reflexivity|].
  cbn [capacity_risk volatility_risk utilization_risk progress_risk risk_score].
  match goal with
  | |- (0 <= ?c <= 1) /\ (0 <= ?v <= 1) /\ (0 <= ?u <= 1) /\ (0 <= ?p <= 1) /\ _ =>
      assert (Hc : 0 <= c <= 1);
      [| assert (Hv : 0 <= v <= 1);
         [| assert (Hu : 0 <= u <= 1);
            [| assert (Hp : 0 <= p <= 1);
               [| generalize dependent c; generalize dependent v;
                  generalize dependent u; generalize dependent p ]]]]
  end.
  - destruct (Qlt_bool 0 _) eqn:E; [|lra].
    apply Qlt_bool_true in E.
    apply capped_ratio_in_unit. apply Qdiv_nonneg; [|lra].
    apply Qdiv_nonneg; [apply py_max_lower | exact E].
  - clear Hc. destruct (Qlt_bool 0 avg_vel) eqn:E; [|lra].
    apply Qlt_bool_true in E.
    apply capped_ratio_in_unit. apply Qdiv_nonneg; [|lra].
    now apply Qdiv_nonneg.
  - clear Hc Hv. destruct (Qlt_bool 1.05 team_utilization); [lra|].
    destruct (Qlt_bool 0.95 team_utilization); [lra|].
    destruct (Qlt_bool 0.70 team_utilization); lra.
  - clear Hc Hv Hu. destruct (Qlt_bool 0 _); [|lra].
    destruct (String.eqb _ _); [|lra].
    destruct (_ && _); [lra|].
    destruct (Qlt_bool _ _); lra.
  - intros p Hp u Hu v Hv c Hc. repeat split; try tauto; lra.
Qed.

Lemma risk_factors_and_score_in_unit_interval_witness :
  ~ terminal sample_initiative /\
  0 <= 4 /\
  exists f,
    factors (calculate_initiative_risk_score sample_initiative 4 40 4 0.9) = Some f /\
    0 <= capacity_risk f <= 1 /\
    0 <= volatility_risk f <= 1 /\
    0 <= utilization_risk f <= 1 /\
    0 <= progress_risk f <= 1 /\
    0 <= risk_score (calculate_initiative_risk_score sample_initiative 4 40 4 0.9) <= 1.
Proof.
  assert (Hnt : ~ terminal sample_initiative).
  { unfold terminal. simpl. intros [H | H]; discriminate H. }
  assert (Hstd : 0 <= 4) by (unfold Qle; simpl; lia).
  split; [exact Hnt|]. split; [exact Hstd|].
  exact (risk_factors_and_score_in_unit_interval
           sample_initiative 4 40 4 0.9 Hnt Hstd).
Defined.

(* ------------------------------------------------------------------ *)
(** ** Monte Carlo completion probability *)

Lemma filter_length_le {A : Type} (f g : A -> bool) (xs : list A) :
  (forall x, f x = true -> g x = true) ->
  (List.length (filter f xs) <= List.length (filter g xs))%nat.
Proof.
  intro Himp. induction xs as [|x rest IH]; simpl; [lia|].
  destruct (f x) eqn:Ef.
  - rewrite (Himp x Ef). simpl. lia.
  - destruct (g x); simpl; lia.
Qed.

Lemma Qnat_le (a b : nat) : (a <= b)%nat -> Qnat a <= Qnat b.
Proof.
  intro Hle. unfold Qnat. rewrite <- Zle_Qle. lia.
Qed.

Lemma Qnat_nonneg (n : nat) : 0 <= Qnat n.
Proof. change 0 with (Qnat 0). apply Qnat_le. lia. Qed.

Lemma Qdiv_le_compat_nonneg (a b c : Q) : a <= b -> 0 <= c -> a / c <= b / c.
Proof.
  intros Hab Hc. unfold Qdiv. apply Qmult_le_compat_r; [exact Hab|].
  now apply Qinv_le_0_compat.
Qed.

Lemma np_maximum_zero_nonneg (v : Q) : 0 <= np_maximum v 0.
Proof.
  unfold np_maximum. destruct (Qlt_bool v 0) eqn:E.
  - apply Qle_refl.
  - now apply Qlt_bool_false in E.
Qed.

(** C3. With the history and the random draw fixed, the probability returned
    by [predict_sprint_completion_probability] does not increase when
    [committed_points] grows: [c1 <= c2] gives
    [probability(c2) <= probability(c1)]. *)
Theorem completion_probability_non_increasing :
  forall (E : Externals) (c1 c2 : Q) (historical_velocities : list Q)
         (n_simulations : nat),
    c1 <= c2 ->
    probability (predict_sprint_completion_probability
                   c2 historical_velocities n_simulations)
    <= probability (predict_sprint_completion_probability
                      c1 historical_velocities n_simulations).
Proof.
  intros E c1 c2 hist n Hle.
  unfold predict_sprint_completion_probability.
  destruct (List.length hist <? 2)%nat; cbn [probability].
  - apply Qle_refl.
  - apply Qdiv_le_compat_nonneg; [|apply (Qnat_nonneg n)].
    apply (Qnat_le _ _). apply filter_length_le.
    intros v Hv. apply Qle_bool_iff in Hv. apply Qle_bool_iff.
    now apply Qle_trans with c2.
Qed.

Lemma completion_probability_non_increasing_witness :
  30 <= 40 /\
  probability (@predict_sprint_completion_probability reference_externals
                 40 [30; 32; 31; 33; 34] 20)
  <= probability (@predict_sprint_completion_probability reference_externals
                    30 [30; 32; 31; 33; 34] 20).
Proof.
  assert (Hle : 30 <= 40) by (unfold Qle; simpl; lia).
  split; [exact Hle|].
  exact (completion_probability_non_increasing
           reference_externals 30 40 [30; 32; 31; 33; 34] 20%nat Hle).
Defined.

(** On the witness input the two probabilities differ: no draw reaches 40,
    sixteen of the twenty draws reach 30. *)
Example completion_probability_sample_values :
  probability (@predict_sprint_completion_probability reference_externals
                 40 [30; 32; 31; 33; 34] 20) == 0 /\
  probability (@predict_sprint_completion_probability reference_externals
                 30 [30; 32; 31; 33; 34] 20) == 0.8.
Proof. split; vm_compute; reflexivity. Qed.

(** C7 fails as stated: with fewer than two historical velocities the
    function returns the neutral fallback, whose sample is empty whatever
    [n_simulations] is. *)
Lemma simulated_sample_length_counterexample :
  0 <= 30 /\
  List.length (simulated_velocities
                 (@predict_sprint_completion_probability reference_externals
                    30 [28] 1000))
  <> 1000%nat.
Proof.
  split.
  - unfold Qle; simpl; lia.
  - simpl. discriminate.
Qed.

(** C7, amended. When at least two historical velocities are given, the
    simulated-velocity sample has exactly [n_simulations] entries and each
    of them is [>= 0]; when fewer than two are given, the sample is empty. *)
Theorem simulated_sample_shape :
  forall (E : Externals) (committed : Q) (historical_velocities : list Q)
         (n_simulations : nat),
    let sample :=
      simulated_velocities
        (predict_sprint_completion_probability
           committed historical_velocities n_simulations) in
    ((2 <= List.length historical_velocities)%nat ->
       List.length sample = n_simulations /\ Forall (fun v => 0 <= v) sample) /\
    ((List.length historical_velocities < 2)%nat -> sample = []).
Proof.
  intros E committed hist n sample. subst sample.
  unfold predict_sprint_completion_probability.
  destruct (Nat.ltb_spec (List.length hist) 2) as [Hshort | Hlong];
    cbn [simulated_velocities]; split; intro Hlen; try lia.
  - reflexivity.
  - split.
    + now rewrite length_map, np_random_normal_length.
    + apply Forall_forall. intros v Hin.
      apply in_map_iff in Hin. destruct Hin as [d [<- _]].
      apply np_maximum_zero_nonneg.
Qed.

Lemma simulated_sample_shape_witness :
  (2 <= List.length [30; 32; 31; 33; 34])%nat /\
  List.length (simulated_velocities
                 (@predict_sprint_completion_probability reference_externals
                    40 [30; 32; 31; 33; 34] 20)) = 20%nat /\
  Forall (fun v => 0 <= v)
         (simulated_velocities
            (@predict_sprint_completion_probability reference_externals
               40 [30; 32; 31; 33; 34] 20)).
Proof.
  assert (Hlen : (2 <= List.length [30; 32; 31; 33; 34])%nat) by (simpl; lia).
  split; [exact Hlen|].
  exact (proj1 (simulated_sample_shape
                  reference_externals 40 [30; 32; 31; 33; 34] 20%nat) Hlen).
Defined.

(* ------------------------------------------------------------------ *)
(** ** Velocity forecast *)

Lemma Forall_repeat {A : Type} (P : A -> Prop) (x : A) (n : nat) :
  P x -> Forall P (repeat x n).
Proof. intro Hx. induction n; simpl; constructor; auto. Qed.

(** C9. With fewer than three historical points and [n_sprints >= 1], the
    forecast is returned (no exception) and its [forecast], [lower_bound] and
    [upper_bound] arrays each have [n_sprints] entries, all equal to the mean
    of the history, to 0.8 times it and to 1.2 times it; the mean is 40 for
    an empty history. *)
Theorem short_history_forecast_is_flat :
  forall (E : Externals) (sprints_df : list sprint_row) (n_sprints : Z),
    (List.length sprints_df < 3)%nat ->
    (1 <= n_sprints)%Z ->
    exists f,
      forecast_velocity_next_n_sprints sprints_df n_sprints = Ok f /\
      Z.of_nat (List.length (forecast f)) = n_sprints /\
      Z.of_nat (List.length (lower_bound f)) = n_sprints /\
      Z.of_nat (List.length (upper_bound f)) = n_sprints /\
      Forall (fun v => v = short_history_mean sprints_df) (forecast f) /\
      Forall (fun v => v == 0.8 * short_history_mean sprints_df) (lower_bound f) /\
      Forall (fun v => v == 1.2 * short_history_mean sprints_df) (upper_bound f).
Proof.
  intros E df n Hshort Hn.
  unfold forecast_velocity_next_n_sprints.
  rewrite length_map.
  destruct (Nat.ltb_spec (List.length df) 3) as [_ | Hlong]; [|lia].
  eexists. split; [reflexivity|].
  cbn [forecast lower_bound upper_bound].
  rewrite !repeat_length.
  assert (Hmean :
            (if (0 <? List.length df)%nat then np_mean (map velocity df) else 40)
            = short_history_mean df).
  { destruct df; reflexivity. }
  rewrite Hmean.
  repeat split; try lia; apply Forall_repeat; try reflexivity; apply Qmult_comm.
Qed.

Lemma short_history_forecast_is_flat_witness :
  (List.length two_sprints < 3)%nat /\
  (1 <= 3)%Z /\
  exists f,
    @forecast_velocity_next_n_sprints reference_externals two_sprints 3 = Ok f /\
    Z.of_nat (List.length (forecast f)) = 3%Z /\
    Z.of_nat (List.length (lower_bound f)) = 3%Z /\
    Z.of_nat (List.length (upper_bound f)) = 3%Z /\
    Forall (fun v => v = short_history_mean two_sprints) (forecast f) /\
    Forall (fun v => v == 0.8 * short_history_mean two_sprints) (lower_bound f) /\
    Forall (fun v => v == 1.2 * short_history_mean two_sprints) (upper_bound f).
Proof.
  assert (Hshort : (List.length two_sprints < 3)%nat) by (simpl; lia).
  assert (Hn : (1 <= 3)%Z) by lia.
  split; [exact Hshort|]. split; [exact Hn|].
  exact (short_history_forecast_is_flat reference_externals two_sprints 3 Hshort Hn).
Defined.

(** The three short histories, spelled out. *)
Example short_history_mean_values (a b : Q) :
  short_history_mean [] = 40 /\
  short_history_mean [ {| sprint_number := 1; velocity := a |} ] == a /\
  short_history_mean [ {| sprint_number := 1; velocity := a |};
                       {| sprint_number := 2; velocity := b |} ] == (a + b) / 2.
Proof.
  split; [reflexivity|]. split.
  - unfold short_history_mean, np_mean, Qsum, Qlen, Qnat. simpl. field.
  - unfold short_history_mean, np_mean, Qsum, Qlen, Qnat. simpl. field.
Qed.

Lemma np_std_nonneg (E : Externals) (xs : list Q) : 0 <= np_std xs.
Proof. unfold np_std. apply np_sqrt_nonneg. Qed.

Lemma predicted_velocity_clamped (slope intercept r_value moving_avg last_sprint i : Q) :
  20 <= predicted_velocity_at slope intercept r_value moving_avg last_sprint i <= 60.
Proof.
  unfold predicted_velocity_at. split.
  - apply py_max_lower.
  - apply py_max_upper; [lra | apply py_min_upper].
Qed.

Lemma lower_band_bounds (x s : Q) :
  20 <= x -> 0 <= s ->
  15 <= py_max 15 (x - 1.5 * s) <= x.
Proof.
  intros Hx Hs. split.
  - apply py_max_lower.
  - apply py_max_upper; lra.
Qed.

Lemma upper_band_bounds (x s : Q) :
  x <= 60 -> 0 <= s ->
  x <= py_min 70 (x + 1.5 * s) <= 70.
Proof.
  intros Hx Hs. split.
  - apply py_min_lower; lra.
  - apply py_min_upper.
Qed.

Lemma range_from_1_length (n : Z) : List.length (range_from_1 n) = Z.to_nat n.
Proof. unfold range_from_1. now rewrite length_map, length_seq. Qed.

(** With three or more points the forecast is returned exactly when the
    regression is. *)
Lemma long_history_forecast_returns
    (E : Externals) (sprints_df : list sprint_row) (n_sprints : Z) (fit : Q * Q * Q) :
  (3 <= List.length sprints_df)%nat ->
  stats_linregress (tail_n 5 (map sprint_number sprints_df))
                   (tail_n 5 (map velocity sprints_df)) = Ok fit ->
  exists f, forecast_velocity_next_n_sprints sprints_df n_sprints = Ok f.
Proof.
  intros Hlong Hfit. unfold forecast_velocity_next_n_sprints.
  rewrite length_map.
  destruct (Nat.ltb_spec (List.length sprints_df) 3) as [Hshort | _]; [lia|].
  rewrite Hfit. destruct fit as [[slope intercept] r_value].
  eexists. reflexivity.
Qed.

(** C10. With at least three historical points, every horizon [i] of a
    returned forecast satisfies
    [lower_bound[i] <= forecast[i] <= upper_bound[i]],
    [20 <= forecast[i] <= 60], [lower_bound[i] >= 15] and
    [upper_bound[i] <= 70]; the three arrays have one entry per horizon. *)
Theorem long_history_forecast_bounds :
  forall (E : Externals) (sprints_df : list sprint_row) (n_sprints : Z)
         (f : velocity_forecast),
    (3 <= List.length sprints_df)%nat ->
    forecast_velocity_next_n_sprints sprints_df n_sprints = Ok f ->
    List.length (forecast f) = Z.to_nat n_sprints /\
    List.length (lower_bound f) = Z.to_nat n_sprints /\
    List.length (upper_bound f) = Z.to_nat n_sprints /\
    forall (i : nat) (x lo hi : Q),
      nth_error (forecast f) i = Some x ->
      nth_error (lower_bound f) i = Some lo ->
      nth_error (upper_bound f) i = Some hi ->
      lo <= x <= hi /\ 20 <= x <= 60 /\ 15 <= lo /\ hi <= 70.
Proof.
  intros E df n f Hlong Hrun.
  unfold forecast_velocity_next_n_sprints in Hrun.
  rewrite length_map in Hrun.
  destruct (Nat.ltb_spec (List.length df) 3) as [Hshort | _]; [lia|].
  destruct (stats_linregress _ _) as [[[slope intercept] r_value] | e];
    simpl in Hrun; [|discriminate Hrun].
  injection Hrun as <-. cbn [forecast lower_bound upper_bound].
  rewrite !length_map, !range_from_1_length.
  repeat split; try reflexivity.
  all: rewrite nth_error_map in *.
  all: destruct (nth_error (range_from_1 n) i) as [k|]; simpl in *; try discriminate.
  all: repeat match goal with H : Some _ = Some _ |- _ => injection H as <- end.
  all: pose proof (predicted_velocity_clamped slope intercept r_value
                     (np_mean (tail_n 5 (map velocity df)))
                     (last (map sprint_number df) 0) k) as [Hlo Hhi].
  all: pose proof (np_std_nonneg E (tail_n 5 (map velocity df))) as Hstd.
  all: try (apply lower_band_bounds; assumption).
  all: try (apply upper_band_bounds; assumption).
  all: assumption.
Qed.

Lemma long_history_forecast_bounds_witness :
  (3 <= List.length five_sprints)%nat /\
  @forecast_velocity_next_n_sprints reference_externals five_sprints 3
  = Ok five_sprints_forecast /\
  List.length (forecast five_sprints_forecast) = Z.to_nat 3 /\
  List.length (lower_bound five_sprints_forecast) = Z.to_nat 3 /\
  List.length (upper_bound five_sprints_forecast) = Z.to_nat 3 /\
  forall (i : nat) (x lo hi : Q),
    nth_error (forecast five_sprints_forecast) i = Some x ->
    nth_error (lower_bound five_sprints_forecast) i = Some lo ->
    nth_error (upper_bound five_sprints_forecast) i = Some hi ->
    lo <= x <= hi /\ 20 <= x <= 60 /\ 15 <= lo /\ hi <= 70.
Proof.
  assert (Hlong : (3 <= List.length five_sprints)%nat) by (simpl; lia).
  assert (Hrun : @forecast_velocity_next_n_sprints reference_externals five_sprints 3
                 = Ok five_sprints_forecast) by (vm_compute; reflexivity).
  split; [exact Hlong|]. split; [exact Hrun|].
  exact (long_history_forecast_bounds
           reference_externals five_sprints 3 five_sprints_forecast Hlong Hrun).
Defined.

(** The first horizon of that forecast is 33.89 points. *)
Example five_sprints_first_horizon :
  exists x, nth_error (forecast five_sprints_forecast) 0 = Some x /\ x == 33.89.
Proof. eexists. split; [reflexivity|]. vm_compute. reflexivity. Qed.

(* ------------------------------------------------------------------ *)
(** ** Missing fields *)

(** C2 fails as stated: an initiative without [total_story_points] is scored
    by both operations and no error is raised.  The risk scorer reads the
    missing total as 0 (so no work remains and the progress factor is the
    flat 0.5) and reports a Low risk of 7/24; the priority scorer returns
    its score. *)
Lemma missing_total_is_defaulted_counterexample :
  total_story_points initiative_without_total = None /\
  (let r := calculate_initiative_risk_score initiative_without_total 4 40 4 0.9 in
   remaining_points r = Some 0 /\
   risk_score r == 7 # 24 /\
   risk_level r = "Low"%string) /\
  (exists score,
      calculate_priority_score initiative_without_total = Ok score /\
      score == 5.85).
Proof.
  split; [reflexivity|]. split.
  - vm_compute. repeat split; reflexivity.
  - eexists. split; [reflexivity|]. vm_compute. reflexivity.
Qed.

(** C2, amended. [calculate_initiative_risk_score] never fails on a missing
    field: an absent [total_story_points], [completed_story_points],
    [target_sprint] or [status] is replaced by 0, 0, [current_sprint + 10]
    and "Backlog".  [calculate_priority_score] fails with a [KeyError] naming
    the field when [impact_score] or (with the impact present)
    [effort_score] is absent, and replaces an absent [strategic_category] or
    [roi_estimate] by "Process Improvement" and "Medium". *)
Theorem missing_fields_defaulted_or_reported :
  forall (ini : initiative) (current_sprint avg_vel velocity_std team_utilization : Q),
    calculate_initiative_risk_score
      ini current_sprint avg_vel velocity_std team_utilization
    = calculate_initiative_risk_score
        (with_risk_defaults current_sprint ini)
        current_sprint avg_vel velocity_std team_utilization
    /\ (impact_score ini = None ->
        calculate_priority_score ini = Raise (KeyError "impact_score"))
    /\ (impact_score ini <> None -> effort_score ini = None ->
        calculate_priority_score ini = Raise (KeyError "effort_score"))
    /\ calculate_priority_score ini
       = calculate_priority_score (with_priority_defaults ini)
    /\ (impact_score ini <> None -> effort_score ini <> None ->
        exists score, calculate_priority_score ini = Ok score).
Proof.
  intros ini current_sprint avg_vel velocity_std team_utilization.
  repeat split.
  - intro Himpact. unfold calculate_priority_score. now rewrite Himpact.
  - intros Himpact Heffort. unfold calculate_priority_score.
    destruct (impact_score ini) as [impact|]; [|congruence].
    now rewrite Heffort.
  - intros Himpact Heffort. unfold calculate_priority_score.
    destruct (impact_score ini) as [impact|]; [|congruence].
    destruct (effort_score ini) as [effort|]; [|congruence].
    simpl. destruct (Qeq_bool effort 0); eexists; reflexivity.
Qed.

Lemma missing_fields_defaulted_or_reported_witness :
  impact_score initiative_without_effort <> None /\
  effort_score initiative_without_effort = None /\
  calculate_priority_score initiative_without_effort
  = Raise (KeyError "effort_score").
Proof.
  assert (Himpact : impact_score initiative_without_effort <> None)
    by (simpl; discriminate).
  assert (Heffort : effort_score initiative_without_effort = None) by reflexivity.
  split; [exact Himpact|]. split; [exact Heffort|].
  exact (proj1 (proj2 (proj2 (missing_fields_defaulted_or_reported
                                initiative_without_effort 4 40 4 0.9)))
               Himpact Heffort).
Defined.

(* ------------------------------------------------------------------ *)
(** ** Portfolio health *)

Lemma categorize_quadrant_row (r : initiative_row) :
  exists q, categorize_quadrant (as_series r) = Ok q.
Proof.
  unfold categorize_quadrant. simpl.
  destruct (_ && _); [eexists; reflexivity|].
  destruct (_ && _); [eexists; reflexivity|].
  destruct (_ && _); eexists; reflexivity.
Qed.

Lemma add_quadrant_classification_total (df : list initiative_row) :
  exists classified,
    add_quadrant_classification df = Ok classified /\
    List.length classified = List.length df.
Proof.
  unfold add_quadrant_classification.
  induction df as [|r rest [classified [IH Hlen]]]; simpl.
  - exists []. split; reflexivity.
  - destruct (categorize_quadrant_row r) as [q Hq]. rewrite Hq. simpl.
    rewrite IH. simpl. eexists. split; [reflexivity|]. simpl. now rewrite Hlen.
Qed.

(** The health score is returned for every portfolio, and on a non-empty one
    it is 100 times the value of the specified formula taken at the ratios
    the function itself reports (those are percentages, hence the [/ 100]).
    The weights 30, 20, 30, 20 already add up to 100; the final [* 100]
    scales the result a second time. *)
Lemma portfolio_health_is_hundredfold (df : list initiative_row) :
  df <> [] ->
  exists h,
    calculate_portfolio_health_score df = Ok h /\
    health_score h ==
      100 * spec_portfolio_health
              (quick_wins_ratio h / 100) (time_sinks_ratio h / 100)
              (completion_rate h / 100)
              (Qnat (deprioritized_count h) / Qlen df).
Proof.
  intro Hne. unfold calculate_portfolio_health_score.
  destruct (add_quadrant_classification_total df) as [classified [-> Hlen]].
  simpl. eexists. split; [reflexivity|].
  cbn [health_score quick_wins_ratio time_sinks_ratio completion_rate
       deprioritized_count].
  unfold Qlen. rewrite <- Hlen.
  destruct (Nat.ltb_spec 0 (List.length classified)) as [Hpos | Hzero].
  - unfold spec_portfolio_health. fold (Qnat (List.length classified)). field.
    intro Hzero. unfold Qnat, Qeq in Hzero. simpl in Hzero. lia.
  - destruct df; [congruence | simpl in Hlen; lia].
Qed.

(** C1, a defect of the code.  The specified health of a portfolio whose only
    initiative is a completed quick win is 100 (all four ratios are at their
    best), and the function's comment promises a score in 0-100; the function
    returns 10000. *)
Theorem portfolio_health_score_of_one_quick_win :
  exists h,
    calculate_portfolio_health_score one_completed_quick_win = Ok h /\
    quick_wins_ratio h == 100 /\
    time_sinks_ratio h == 0 /\
    completion_rate h == 100 /\
    deprioritized_count h = 0%nat /\
    spec_portfolio_health 1 0 1 0 == 100 /\
    health_score h == 10000 /\
    ~ health_score h <= 100.
Proof.
  eexists. split; [reflexivity|].
  repeat split; try (vm_compute; reflexivity).
  vm_compute. intro H. apply H. reflexivity.
Qed.

(** An empty portfolio scores 2000. *)
Example portfolio_health_score_of_empty :
  exists h, calculate_portfolio_health_score [] = Ok h /\ health_score h == 2000.
Proof. eexists. split; [reflexivity|]. vm_compute. reflexivity. Qed.

(* ------------------------------------------------------------------ *)
(** ** Priority tiers *)

Lemma calculate_priority_score_row (r : initiative_row) :
  exists score, calculate_priority_score (as_series r) = Ok score.
Proof.
  unfold calculate_priority_score. simpl.
  destruct (Qeq_bool _ _); eexists; reflexivity.
Qed.

Lemma mapM_total {A B : Type} (f : A -> result B) (xs : list A) :
  (forall x, exists y, f x = Ok y) ->
  exists ys, mapM f xs = Ok ys /\ List.length ys = List.length xs.
Proof.
  intro Hf. induction xs as [|x rest [ys [IH Hlen]]]; simpl.
  - exists []. split; reflexivity.
  - destruct (Hf x) as [y Hy]. rewrite Hy, IH. simpl.
    eexists. split; [reflexivity|]. simpl. now rewrite Hlen.
Qed.

(** The tier [pd.cut] gives to one score with the bins and labels of
    [add_priority_scores]. *)
Lemma tier_of_score (x : Q) :
  (0 < x -> x <= 1.5 -> pd_cut TIER_BINS TIER_LABELS x = Some "Low"%string) /\
  (1.5 < x -> x <= 2.5 -> pd_cut TIER_BINS TIER_LABELS x = Some "Medium"%string) /\
  (2.5 < x -> pd_cut TIER_BINS TIER_LABELS x = Some "High"%string) /\
  (x <= 0 -> pd_cut TIER_BINS TIER_LABELS x = None).
Proof.
  unfold TIER_BINS, TIER_LABELS. simpl.
  destruct (Qlt_bool 0 x) eqn:E0;
    [apply Qlt_bool_true in E0 | apply Qlt_bool_false in E0];
  (destruct (Qle_bool x 1.5) eqn:E1;
    [apply Qle_bool_iff in E1 | apply Qle_bool_false in E1]);
  (destruct (Qlt_bool 1.5 x) eqn:E2;
    [apply Qlt_bool_true in E2 | apply Qlt_bool_false in E2]);
  (destruct (Qle_bool x 2.5) eqn:E3;
    [apply Qle_bool_iff in E3 | apply Qle_bool_false in E3]);
  (destruct (Qlt_bool 2.5 x) eqn:E4;
    [apply Qlt_bool_true in E4 | apply Qlt_bool_false in E4]);
  simpl; repeat split; intros; try reflexivity; exfalso; lra.
Qed.

(** C8 fails as stated: [effort_score = 0] gives the priority score 0, which
    lies in none of the bins (0,1.5], (1.5,2.5], (2.5,inf), so the row's
    [priority_tier] is missing rather than Low, Medium or High. *)
Lemma zero_score_has_no_tier_counterexample :
  exists s,
    add_priority_scores effortless_portfolio = Ok [s] /\
    0 <= priority_score s /\
    priority_score s == 0 /\
    priority_tier s = None /\
    ~ In (priority_tier s) [Some "Low"; Some "Medium"; Some "High"]%string.
Proof.
  eexists. split; [reflexivity|]. simpl.
  repeat split; try (vm_compute; congruence).
  intros [H | [H | [H | []]]]; discriminate H.
Qed.

(** C8, amended. [add_priority_scores] returns a row for every initiative,
    and a row with [priority_score > 0] gets a tier among Low, Medium and
    High following the bins (0,1.5] -> Low, (1.5,2.5] -> Medium,
    (2.5,inf) -> High, upper edges included; a row with a score of exactly 0
    (or below) gets no tier. *)
Theorem priority_tier_follows_bins :
  forall (initiatives_df : list initiative_row),
  exists scored_df,
    add_priority_scores initiatives_df = Ok scored_df /\
    List.length scored_df = List.length initiatives_df /\
    forall s, In s scored_df ->
      (0 < priority_score s -> priority_score s <= 1.5 ->
       priority_tier s = Some "Low"%string) /\
      (1.5 < priority_score s -> priority_score s <= 2.5 ->
       priority_tier s = Some "Medium"%string) /\
      (2.5 < priority_score s -> priority_tier s = Some "High"%string) /\
      (priority_score s <= 0 -> priority_tier s = None).
Proof.
  intro df. unfold add_priority_scores.
  destruct (mapM_total (fun r => calculate_priority_score (as_series r)) df
                       calculate_priority_score_row) as [scores [-> Hlen]].
  simpl. eexists. split; [reflexivity|]. split.
  - rewrite length_map, length_combine, Hlen. apply Nat.min_id.
  - intros s Hin. apply in_map_iff in Hin. destruct Hin as [[r x] [<- _]].
    cbn [priority_score priority_tier fst snd]. apply tier_of_score.
Qed.

Lemma priority_tier_follows_bins_witness :
  exists scored_df,
    add_priority_scores mixed_portfolio = Ok scored_df /\
    List.length scored_df = List.length mixed_portfolio /\
    forall s, In s scored_df ->
      (0 < priority_score s -> priority_score s <= 1.5 ->
       priority_tier s = Some "Low"%string) /\
      (1.5 < priority_score s -> priority_score s <= 2.5 ->
       priority_tier s = Some "Medium"%string) /\
      (2.5 < priority_score s -> priority_tier s = Some "High"%string) /\
      (priority_score s <= 0 -> priority_tier s = None).
Proof. exact (priority_tier_follows_bins mixed_portfolio). Defined.

(** Scores, dense ranks and tiers of [mixed_portfolio]. *)
Example mixed_portfolio_tiers :
  exists scored_df,
    add_priority_scores mixed_portfolio = Ok scored_df /\
    map (fun s => (Qred (priority_score s), priority_rank s, priority_tier s)) scored_df
    = [ (117 # 20, 1%Z, Some "High"%string);
        (39 # 80, 2%Z, Some "Low"%string);
        (0, 3%Z, None) ].
Proof. eexists. split; [reflexivity|]. vm_compute. reflexivity. Qed.

(* ------------------------------------------------------------------ *)
(** ** Capacity allocation: the loop *)

Lemma total_points_allocated_app (allocs : list allocation) (a : allocation) :
  total_points_allocated (allocs ++ [a])
  == total_points_allocated allocs + points_allocated a.
Proof.
  induction allocs as [|b rest IH]; simpl.
  - ring.
  - rewrite IH. ring.
Qed.

Lemma allocation_step_within_budget (available : Q) (st : alloc_state) (p : pending_row) :
  within_budget available st ->
  within_budget available (state_of (allocation_step available st p)).
Proof.
  intros [Hused Hsum]. unfold allocation_step.
  destruct (Qle_bool _ _) eqn:Efit.
  - apply Qle_bool_iff in Efit. split; simpl.
    + exact Efit.
    + rewrite total_points_allocated_app, Hsum. reflexivity.
  - destruct (Qlt_bool 0 _) eqn:Eleft; simpl.
    + split; simpl.
      * apply Qle_refl.
      * rewrite total_points_allocated_app, Hsum. simpl. ring.
    + now split.
Qed.

Lemma allocation_loop_within_budget (available : Q) (pending : list pending_row) :
  forall st,
    within_budget available st ->
    within_budget available (allocation_loop available st pending).
Proof.
  induction pending as [|p rest IH]; intros st Hst; simpl.
  - exact Hst.
  - pose proof (allocation_step_within_budget available st p Hst) as Hstep.
    destruct (allocation_step available st p) as [st' | st']; simpl in Hstep.
    + now apply IH.
    + exact Hstep.
Qed.

(** The first half of C5 holds on every input: with a non-negative budget
    the loop never hands out more than [available_capacity], and the
    reported [capacity_used] is the sum of [points_allocated]. *)
Lemma allocation_never_exceeds_capacity (available : Q) (pending : list pending_row) :
  0 <= available ->
  let final := allocation_loop available initial_state pending in
  st_capacity_used final <= available /\
  total_points_allocated (st_allocated final) <= available /\
  total_points_allocated (st_allocated final) == st_capacity_used final.
Proof.
  intros Havail final.
  assert (Hinit : within_budget available initial_state).
  { split; simpl; [exact Havail | reflexivity]. }
  destruct (allocation_loop_within_budget available pending initial_state Hinit)
    as [Hused Hsum].
  fold final in Hused, Hsum.
  repeat split; [exact Hused | now rewrite Hsum | exact Hsum].
Qed.

(** [capacity_used] never decreases while the loop runs, as long as no
    pending initiative has more completed than total points. *)
Lemma capacity_used_monotone_without_overcompletion
    (available : Q) (pending : list pending_row) :
  Forall (fun p => 0 <= col_remaining_points p) pending ->
  forall st, nondecreasing (capacity_used_trace available st pending) = true.
Proof.
  induction 1 as [|p rest Hp _ IH]; intro st; [reflexivity|].
  cbn [capacity_used_trace].
  unfold allocation_step.
  destruct (Qle_bool _ _) eqn:Efit.
  - match goal with
    | |- nondecreasing (_ :: capacity_used_trace _ ?s _) = true =>
        specialize (IH s); destruct rest; simpl in *
    end.
    + rewrite andb_true_r. apply Qle_bool_iff. lra.
    + apply andb_true_iff. split; [apply Qle_bool_iff; lra | exact IH].
  - destruct (Qlt_bool 0 _) eqn:Eleft.
    + apply Qlt_bool_true in Eleft. simpl. rewrite andb_true_r.
      apply Qle_bool_iff. lra.
    + specialize (IH st). destruct rest; simpl in *.
      * rewrite andb_true_r. apply Qle_bool_iff. lra.
      * apply andb_true_iff. split; [apply Qle_bool_iff; lra | exact IH].
Qed.

(* ------------------------------------------------------------------ *)
(** ** Capacity allocation: the whole simulation *)

Lemma add_priority_scores_total (df : list initiative_row) :
  exists scored_df, add_priority_scores df = Ok scored_df.
Proof.
  unfold add_priority_scores.
  destruct (mapM_total (fun r => calculate_priority_score (as_series r)) df
                       calculate_priority_score_row) as [scores [-> _]].
  simpl. eexists. reflexivity.
Qed.

Lemma pending_initiatives_total (E : Externals) (df : list initiative_row) :
  exists rows, pending_initiatives df = Ok rows.
Proof.
  unfold pending_initiatives.
  destruct (add_priority_scores_total
              (filter (fun r => isin (col_status r) ["Active"; "Backlog"]%string) df))
    as [scored_df ->].
  simpl. eexists. reflexivity.
Qed.

Lemma Sorted_map {A B : Type} (R : B -> B -> Prop) (f : A -> B) (xs : list A) :
  Sorted (fun a b => R (f a) (f b)) xs -> Sorted R (map f xs).
Proof.
  induction 1 as [|x rest Hs IH Hhd]; simpl; constructor; auto.
  destruct Hhd; simpl; constructor; auto.
Qed.

(** The loop walks the pending initiatives from the highest priority score
    to the lowest. *)
Lemma pending_initiatives_sorted (E : Externals) (df : list initiative_row)
    (rows : list pending_row) :
  pending_initiatives df = Ok rows ->
  Sorted (fun a b => priority_score (scored b) <= priority_score (scored a)) rows.
Proof.
  unfold pending_initiatives. intro Hrun.
  destruct (add_priority_scores _) as [scored_df | e]; simpl in Hrun;
    [|discriminate Hrun].
  injection Hrun as <-.
  apply (Sorted_map
           (fun a b => priority_score (scored b) <= priority_score (scored a))).
  simpl. apply (sort_values_desc_sorted scored_row priority_score).
Qed.

(** The simulation always returns, and with a non-negative budget its
    [capacity_used] and the sum of its [points_allocated] stay within
    [available_capacity]. *)
Lemma simulation_never_exceeds_capacity (E : Externals)
    (initiatives_df : list initiative_row) (sprints_df : list sprint_row)
    (future_sprints : Q) :
  exists plan,
    simulate_capacity_allocation initiatives_df sprints_df future_sprints = Ok plan /\
    (0 <= available_capacity plan ->
     capacity_used plan <= available_capacity plan /\
     total_points_allocated (allocated_initiatives plan) <= available_capacity plan).
Proof.
  unfold simulate_capacity_allocation.
  destruct (pending_initiatives_total E initiatives_df) as [rows ->].
  simpl. eexists. split; [reflexivity|].
  cbn [available_capacity capacity_used allocated_initiatives].
  intro Havail.
  destruct (allocation_never_exceeds_capacity _ rows Havail) as [H1 [H2 _]].
  now split.
Qed.

(** C5, a defect of the code.  The budget is 10 points.  The first
    initiative takes 8; the second has [remaining_points = 10 - 15 = -5],
    is "allocated" -5 points, and [capacity_used] drops from 8 to 3.  The
    risk scorer computes the same quantity as [max(0, total - completed)];
    this loop does not. *)
Theorem capacity_used_drops_on_overcompleted_initiative :
  exists rows plan,
    @pending_initiatives reference_externals overcompleted_portfolio = Ok rows /\
    @simulate_capacity_allocation reference_externals
       overcompleted_portfolio one_sprint_of_ten 1 = Ok plan /\
    available_capacity plan == 10 /\
    map Qred (map col_remaining_points rows) = [8; -5] /\
    map Qred (capacity_used_trace (available_capacity plan) initial_state rows)
    = [0; 8; 3] /\
    nondecreasing (capacity_used_trace (available_capacity plan) initial_state rows)
    = false /\
    map (fun a => (alloc_initiative_id a, Qred (points_allocated a), fits_in_capacity a))
        (allocated_initiatives plan)
    = [ ("INIT-001"%string, 8, true); ("INIT-002"%string, -5, true) ] /\
    capacity_used plan == 3.
Proof.
  eexists. eexists. split; [vm_compute; reflexivity|].
  split; [vm_compute; reflexivity|].
  repeat split; vm_compute; reflexivity.
Qed.

(** C6 fails as stated: INIT-002 is the first initiative that does not fit
    (10 + 5 > 10), but the remaining budget is 0, so it receives no partial
    allocation and the loop does not stop: INIT-003, which comes after it, is
    still considered and gets an entry. *)
Lemma walk_continues_after_exact_fit_counterexample :
  exists rows plan,
    @pending_initiatives reference_externals exhausted_budget_portfolio = Ok rows /\
    map (fun p => (col_initiative_id (base_row (scored p)),
                   Qred (priority_score (scored p)),
                   Qred (col_remaining_points p))) rows
    = [ ("INIT-001"%string, 117 # 20, 10);
        ("INIT-002"%string, 26 # 5, 5);
        ("INIT-003"%string, 91 # 20, 0) ] /\
    @simulate_capacity_allocation reference_externals
       exhausted_budget_portfolio one_sprint_of_ten 1 = Ok plan /\
    available_capacity plan == 10 /\
    map (fun a => (alloc_initiative_id a, Qred (points_allocated a), fits_in_capacity a))
        (allocated_initiatives plan)
    = [ ("INIT-001"%string, 10, true); ("INIT-003"%string, 0, true) ].
Proof.
  eexists. eexists. split; [vm_compute; reflexivity|].
  split; [vm_compute; reflexivity|].
  split; [vm_compute; reflexivity|].
  split; vm_compute; reflexivity.
Qed.

(* ------------------------------------------------------------------ *)
(** ** Capacity allocation: first fit by priority *)

Lemma allocation_loop_fitting_prefix (available : Q) (pre rest : list pending_row) :
  forall st,
    all_fit available (st_capacity_used st) pre ->
    allocation_loop available st (pre ++ rest)
    = allocation_loop available
        {| st_allocated := st_allocated st ++ full_entries pre;
           st_capacity_used := used_after (st_capacity_used st) pre |}
        rest.
Proof.
  induction pre as [|p pre' IH]; intros st Hfit.
  - simpl. rewrite app_nil_r. now destruct st.
  - destruct Hfit as [Hp Hrest]. cbn [app allocation_loop].
    unfold allocation_step. apply Qle_bool_iff in Hp. rewrite Hp.
    rewrite IH by exact Hrest. cbn [st_allocated st_capacity_used].
    unfold full_entries, used_after. simpl. now rewrite <- app_assoc.
Qed.

(** C6, amended.  Walking the pending initiatives in the order of the sorted
    DataFrame: the initiatives [pre] that fit entirely are fully allocated;
    for the first initiative [p] that does not fit, if the remaining budget
    is positive, [p] is partially allocated exactly that remaining budget,
    [capacity_used] becomes [available_capacity] and nothing after [p] is
    considered (the result does not depend on [post]); if no budget remains,
    [p] receives no entry and the walk goes on with the initiatives after
    it. *)
Theorem first_fit_walk :
  forall (available : Q) (pre : list pending_row) (p : pending_row)
         (post : list pending_row),
    all_fit available 0 pre ->
    available < used_after 0 pre + col_remaining_points p ->
    (0 < available - used_after 0 pre ->
     allocation_loop available initial_state (pre ++ p :: post)
     = {| st_allocated :=
            full_entries pre
            ++ [allocation_entry p (available - used_after 0 pre) false];
          st_capacity_used := available |}) /\
    (available - used_after 0 pre <= 0 ->
     allocation_loop available initial_state (pre ++ p :: post)
     = allocation_loop available
         {| st_allocated := full_entries pre;
            st_capacity_used := used_after 0 pre |}
         post).
Proof.
  intros available pre p post Hfit Hover.
  rewrite (allocation_loop_fitting_prefix available pre (p :: post) initial_state Hfit).
  cbn [initial_state st_allocated st_capacity_used app allocation_loop].
  unfold allocation_step. cbn [st_allocated st_capacity_used].
  apply Qle_bool_false in Hover. rewrite Hover.
  split; intro Hleft.
  - apply Qlt_bool_true in Hleft. now rewrite Hleft.
  - apply Qlt_bool_false in Hleft. now rewrite Hleft.
Qed.

Lemma first_fit_walk_witness :
  all_fit 10 0 [row_six] /\
  10 < used_after 0 [row_six] + col_remaining_points row_seven /\
  0 < 10 - used_after 0 [row_six] /\
  allocation_loop 10 initial_state ([row_six] ++ row_seven :: [row_two])
  = {| st_allocated :=
         full_entries [row_six]
         ++ [allocation_entry row_seven (10 - used_after 0 [row_six]) false];
       st_capacity_used := 10 |}.
Proof.
  assert (Hfit : all_fit 10 0 [row_six]).
  { simpl. split; [|exact I]. unfold Qle. simpl. lia. }
  assert (Hover : 10 < used_after 0 [row_six] + col_remaining_points row_seven).
  { unfold Qlt. simpl. lia. }
  assert (Hleft : 0 < 10 - used_after 0 [row_six]).
  { unfold Qlt. simpl. lia. }
  split; [exact Hfit|]. split; [exact Hover|]. split; [exact Hleft|].
  exact (proj1 (first_fit_walk 10 [row_six] row_seven [row_two] Hfit Hover) Hleft).
Defined.

(** On that walk INIT-002 receives the 4 points left and INIT-003 nothing,
    although its 2 points are fewer than what INIT-002 was given. *)
Example first_fit_walk_values :
  map (fun a => (alloc_initiative_id a, Qred (points_allocated a), fits_in_capacity a))
      (st_allocated
         (allocation_loop 10 initial_state [row_six; row_seven; row_two]))
  = [ ("INIT-001"%string, 6, true); ("INIT-002"%string, 4, false) ].
Proof. vm_compute. reflexivity. Qed.

(* ------------------------------------------------------------------ *)
(** ** Quadrants *)

Lemma categorize_quadrant_cases (ini : initiative) (impact effort : Q) :
  impact_score ini = Some impact ->
  effort_score ini = Some effort ->
  exists q,
    categorize_quadrant ini = Ok q /\
    (q = "Quick Wins"%string <-> 6 < impact /\ effort <= 5) /\
    (q = "Major Projects"%string <-> 6 < impact /\ 5 < effort) /\
    (q = "Fill-ins"%string <-> impact <= 6 /\ effort <= 5) /\
    (q = "Time Sinks"%string <-> impact <= 6 /\ 5 < effort).
Proof.
  intros Himpact Heffort. unfold categorize_quadrant.
  rewrite Himpact, Heffort. simpl.
  destruct (Qlt_bool 6 impact) eqn:E1;
    [apply Qlt_bool_true in E1 | apply Qlt_bool_false in E1];
  (destruct (Qle_bool effort 5) eqn:E2;
    [apply Qle_bool_iff in E2 | apply Qle_bool_false in E2]);
  (destruct (Qlt_bool 5 effort) eqn:E3;
    [apply Qlt_bool_true in E3 | apply Qlt_bool_false in E3]);
  (destruct (Qle_bool impact 6) eqn:E4;
    [apply Qle_bool_iff in E4 | apply Qle_bool_false in E4]);
  simpl; try (exfalso; lra);
  (eexists; split; [reflexivity|]);
  repeat split; intros; try discriminate; try assumption;
  try (exfalso; lra); try tauto.
Qed.

(** X1. [categorize_quadrant] needs [impact_score] and [effort_score] and
    names the missing one in a [KeyError]; when both are present it returns
    exactly one of the four labels, decided by [impact > 6] and
    [effort > 5], with impact 6 and effort 5 on the low side. *)
Theorem quadrant_is_decided_by_the_two_cutoffs :
  forall (ini : initiative),
    (impact_score ini = None ->
     categorize_quadrant ini = Raise (KeyError "impact_score")) /\
    (impact_score ini <> None -> effort_score ini = None ->
     categorize_quadrant ini = Raise (KeyError "effort_score")) /\
    (forall impact effort,
        impact_score ini = Some impact ->
        effort_score ini = Some effort ->
        exists q,
          categorize_quadrant ini = Ok q /\
          (q = "Quick Wins"%string <-> 6 < impact /\ effort <= 5) /\
          (q = "Major Projects"%string <-> 6 < impact /\ 5 < effort) /\
          (q = "Fill-ins"%string <-> impact <= 6 /\ effort <= 5) /\
          (q = "Time Sinks"%string <-> impact <= 6 /\ 5 < effort)).
Proof.
  intro ini. split; [|split].
  - intro Himpact. unfold categorize_quadrant. now rewrite Himpact.
  - intros Himpact Heffort. unfold categorize_quadrant.
    destruct (impact_score ini); [|congruence]. now rewrite Heffort.
  - intros impact effort. apply categorize_quadrant_cases.
Qed.

Lemma quadrant_is_decided_by_the_two_cutoffs_witness :
  impact_score sample_initiative = Some 9 /\
  effort_score sample_initiative = Some 3 /\
  exists q,
    categorize_quadrant sample_initiative = Ok q /\
    (q = "Quick Wins"%string <-> 6 < 9 /\ 3 <= 5) /\
    (q = "Major Projects"%string <-> 6 < 9 /\ 5 < 3) /\
    (q = "Fill-ins"%string <-> 9 <= 6 /\ 3 <= 5) /\
    (q = "Time Sinks"%string <-> 9 <= 6 /\ 5 < 3).
Proof.
  assert (Himpact : impact_score sample_initiative = Some 9) by reflexivity.
  assert (Heffort : effort_score sample_initiative = Some 3) by reflexivity.
  split; [exact Himpact|]. split; [exact Heffort|].
  exact (proj2 (proj2 (quadrant_is_decided_by_the_two_cutoffs sample_initiative))
               9 3 Himpact Heffort).
Defined.

(* ------------------------------------------------------------------ *)
(** ** Priority score *)

Lemma strategic_weight_bounds (category : string) :
  1 <= table_get STRATEGIC_WEIGHTS category 1.0 <= 1.5.
Proof.
  unfold STRATEGIC_WEIGHTS. simpl.
  repeat (match goal with |- context [String.eqb ?a ?b] => destruct (String.eqb a b) end;
          [lra|]).
  lra.
Qed.

Lemma roi_multiplier_bounds (roi : string) :
  0.7 <= table_get ROI_MULTIPLIERS roi 1.0 <= 1.3.
Proof.
  unfold ROI_MULTIPLIERS. simpl.
  repeat (match goal with |- context [String.eqb ?a ?b] => destruct (String.eqb a b) end;
          [lra|]).
  lra.
Qed.

(** X2. For an initiative with [impact_score >= 0] and [effort_score > 0]
    the priority score lies between 0.7 and 1.95 times the impact/effort
    ratio, whatever the strategic category and ROI estimate are (known,
    unknown or missing). *)
Theorem priority_score_within_multiplier_range :
  forall (ini : initiative) (impact effort : Q),
    impact_score ini = Some impact ->
    effort_score ini = Some effort ->
    0 <= impact ->
    0 < effort ->
    exists score,
      calculate_priority_score ini = Ok score /\
      0.7 * (impact / effort) <= score <= 1.95 * (impact / effort).
Proof.
  intros ini impact effort Himpact Heffort Hi He.
  unfold calculate_priority_score. rewrite Himpact, Heffort.
  cbn [bind dict_item].
  destruct (Qeq_bool effort 0) eqn:E.
  - apply Qeq_bool_iff in E. rewrite E in He. exfalso. lra.
  - eexists. split; [reflexivity|].
    pose proof (strategic_weight_bounds
                  (dict_get (strategic_category ini) "Process Improvement"%string))
      as [Hs1 Hs2].
    pose proof (roi_multiplier_bounds (dict_get (roi_estimate ini) "Medium"%string))
      as [Hr1 Hr2].
    assert (Hratio : 0 <= impact / effort) by now apply Qdiv_nonneg.
    set (sm := table_get STRATEGIC_WEIGHTS _ _) in *.
    set (rm := table_get ROI_MULTIPLIERS _ _) in *.
    set (ratio := impact / effort) in *.
    assert (Hp : ratio <= ratio * sm <= 1.5 * ratio) by (split; nra).
    set (p := ratio * sm) in *.
    assert (Hq : 0.7 * p <= p * rm <= 1.3 * p) by (split; nra).
    split; lra.
Qed.

Lemma priority_score_within_multiplier_range_witness :
  impact_score sample_initiative = Some 9 /\
  effort_score sample_initiative = Some 3 /\
  0 <= 9 /\ 0 < 3 /\
  exists score,
    calculate_priority_score sample_initiative = Ok score /\
    0.7 * (9 / 3) <= score <= 1.95 * (9 / 3).
Proof.
  assert (Himpact : impact_score sample_initiative = Some 9) by reflexivity.
  assert (Heffort : effort_score sample_initiative = Some 3) by reflexivity.
  assert (Hi : 0 <= 9) by (unfold Qle; simpl; lia).
  assert (He : 0 < 3) by (unfold Qlt; simpl; lia).
  repeat (split; [assumption|]).
  exact (priority_score_within_multiplier_range
           sample_initiative 9 3 Himpact Heffort Hi He).
Defined.

(** X3. When both scores are present, the priority score is 0 exactly when
    [effort_score] is 0 or [impact_score] is 0. *)
Theorem priority_score_zero_iff :
  forall (ini : initiative) (impact effort : Q),
    impact_score ini = Some impact ->
    effort_score ini = Some effort ->
    exists score,
      calculate_priority_score ini = Ok score /\
      (score == 0 <-> effort == 0 \/ impact == 0).
Proof.
  intros ini impact effort Himpact Heffort.
  unfold calculate_priority_score. rewrite Himpact, Heffort.
  cbn [bind dict_item].
  destruct (Qeq_bool effort 0) eqn:E.
  - apply Qeq_bool_iff in E. eexists. split; [reflexivity|].
    split; [now left | reflexivity].
  - apply Qeq_bool_neq in E. eexists. split; [reflexivity|].
    pose proof (strategic_weight_bounds
                  (dict_get (strategic_category ini) "Process Improvement"%string))
      as [Hs1 _].
    pose proof (roi_multiplier_bounds (dict_get (roi_estimate ini) "Medium"%string))
      as [Hr1 _].
    split.
    + intro Hzero. right.
      apply Qmult_integral in Hzero. destruct Hzero as [Hzero | Hzero];
        [|rewrite Hzero in Hr1; exfalso; lra].
      apply Qmult_integral in Hzero. destruct Hzero as [Hzero | Hzero];
        [|rewrite Hzero in Hs1; exfalso; lra].
      rewrite <- (Qmult_div_r impact effort E), Hzero. ring.
    + intros [He | Hi]; [contradiction|].
      rewrite Hi. unfold Qdiv. ring.
Qed.

Lemma priority_score_zero_iff_witness :
  impact_score sample_initiative = Some 9 /\
  effort_score sample_initiative = Some 3 /\
  exists score,
    calculate_priority_score sample_initiative = Ok score /\
    (score == 0 <-> 3 == 0 \/ 9 == 0).
Proof.
  assert (Himpact : impact_score sample_initiative = Some 9) by reflexivity.
  assert (Heffort : effort_score sample_initiative = Some 3) by reflexivity.
  split; [exact Himpact|]. split; [exact Heffort|].
  exact (priority_score_zero_iff sample_initiative 9 3 Himpact Heffort).
Defined.

(* ------------------------------------------------------------------ *)
(** ** Completion probability: range *)

Lemma Qnat_pos (n : nat) : (0 < n)%nat -> 0 < Qnat n.
Proof. intro Hn. unfold Qnat, Qlt. simpl. lia. Qed.

Lemma Qnat_ratio_in_unit (a n : nat) :
  (a <= n)%nat -> (0 < n)%nat -> 0 <= Qnat a / Qnat n <= 1.
Proof.
  intros Hle Hn. pose proof (Qnat_pos n Hn) as Hpos. split.
  - apply Qdiv_nonneg; [apply Qnat_nonneg | exact Hpos].
  - apply Qle_shift_div_r; [exact Hpos|]. rewrite Qmult_1_l. now apply Qnat_le.
Qed.

Lemma Qnat_ratio_self (n : nat) : (0 < n)%nat -> Qnat n / Qnat n == 1.
Proof.
  intro Hn. pose proof (Qnat_pos n Hn) as Hpos. field. intro Hzero.
  rewrite Hzero in Hpos. exact (Qlt_irrefl 0 Hpos).
Qed.

(** X4. With at least one simulation the returned probability is a number
    of [0,1]; and when two or more historical velocities are given and
    [committed_points <= 0], it is 1: every simulated velocity is clipped at
    0 and therefore reaches the commitment. *)
Theorem completion_probability_in_unit_interval :
  forall (E : Externals) (committed : Q) (historical_velocities : list Q)
         (n_simulations : nat),
    (0 < n_simulations)%nat ->
    let p := probability (predict_sprint_completion_probability
                            committed historical_velocities n_simulations) in
    0 <= p <= 1 /\
    ((2 <= List.length historical_velocities)%nat -> committed <= 0 -> p == 1).
Proof.
  intros E committed hist n Hn p. subst p.
  unfold predict_sprint_completion_probability.
  destruct (Nat.ltb_spec (List.length hist) 2) as [Hshort | Hlong];
    cbn [probability].
  - split; [lra | intros; lia].
  - set (drawn := np_random_normal (np_mean hist) (np_std hist) n).
    assert (Hlen : List.length (map (fun v => np_maximum v 0) drawn) = n).
    { unfold drawn. now rewrite length_map, np_random_normal_length. }
    split.
    + apply Qnat_ratio_in_unit; [|exact Hn].
      rewrite <- Hlen. apply List.filter_length_le.
    + intros _ Hneg.
      assert (Hall : filter (fun v => Qle_bool committed v)
                            (map (fun v => np_maximum v 0) drawn)
                     = map (fun v => np_maximum v 0) drawn).
      { apply forallb_filter_id. apply forallb_forall. intros v Hin.
        apply in_map_iff in Hin. destruct Hin as [d [<- _]].
        apply Qle_bool_iff.
        apply Qle_trans with 0; [exact Hneg | apply np_maximum_zero_nonneg]. }
      rewrite Hall, Hlen. now apply Qnat_ratio_self.
Qed.

Lemma completion_probability_in_unit_interval_witness :
  (0 < 20)%nat /\
  0 <= probability (@predict_sprint_completion_probability reference_externals
                      30 [30; 32; 31; 33; 34] 20) <= 1.
Proof.
  assert (Hn : (0 < 20)%nat) by lia.
  split; [exact Hn|].
  exact (proj1 (completion_probability_in_unit_interval
                  reference_externals 30 [30; 32; 31; 33; 34] 20%nat Hn)).
Defined.

(* ------------------------------------------------------------------ *)
(** ** Risk score: range and level *)

Lemma terminal_isin (ini : initiative) :
  terminal ini ->
  isin (dict_get (status ini) "Backlog"%string) ["Completed"; "Deprioritized"]%string
  = true.
Proof. intros [H | H]; rewrite H; reflexivity. Qed.

(** What a non-terminal initiative gets: all keys of the full dict, a score
    between 0.065 and 0.945, and the level that the thresholds 0.3 and 0.6
    give to that score. *)
Lemma non_terminal_risk (ini : initiative)
    (current_sprint avg_vel velocity_std team_utilization : Q) :
  ~ terminal ini ->
  0 <= velocity_std ->
  let r := calculate_initiative_risk_score
             ini current_sprint avg_vel velocity_std team_utilization in
  (exists f remaining sprints_avail,
      factors r = Some f /\
      remaining_points r = Some remaining /\
      sprints_available r = Some sprints_avail) /\
  0.065 <= risk_score r <= 0.945 /\
  ((risk_level r = "Low"%string /\ risk_score r < 0.3) \/
   (risk_level r = "Medium"%string /\ 0.3 <= risk_score r < 0.6) \/
   (risk_level r = "High"%string /\ 0.6 <= risk_score r)).
Proof.
  intros Hnt Hstd r. subst r. unfold calculate_initiative_risk_score.
  rewrite (non_terminal_isin ini Hnt). cbv zeta.
  cbn [factors remaining_points sprints_available risk_score risk_level].
  split; [do 3 eexists; repeat split|].
  match goal with
  | |- _ <= ?c * 0.35 + ?v * 0.25 + ?u * 0.25 + ?p * 0.15 <= _ /\ _ =>
      assert (Hc : 0 <= c <= 1);
      [| assert (Hv : 0 <= v <= 1);
         [| assert (Hu : 0.2 <= u <= 0.9);
            [| assert (Hp : 0.1 <= p <= 0.8);
               [| revert Hc Hv Hu Hp;
                  generalize c; intro cap; generalize v; intro vol;
                  generalize u; intro util; generalize p; intro prog;
                  intros Hc Hv Hu Hp ]]]]
  end.
  - destruct (Qlt_bool 0 _) eqn:E; [|lra].
    apply Qlt_bool_true in E.
    apply capped_ratio_in_unit. apply Qdiv_nonneg; [|lra].
    apply Qdiv_nonneg; [apply py_max_lower | exact E].
  - clear Hc. destruct (Qlt_bool 0 avg_vel) eqn:E; [|lra].
    apply Qlt_bool_true in E.
    apply capped_ratio_in_unit. apply Qdiv_nonneg; [|lra].
    now apply Qdiv_nonneg.
  - clear Hc Hv. destruct (Qlt_bool 1.05 team_utilization); [lra|].
    destruct (Qlt_bool 0.95 team_utilization); [lra|].
    destruct (Qlt_bool 0.70 team_utilization); lra.
  - clear Hc Hv Hu. destruct (Qlt_bool 0 _); [|lra].
    destruct (String.eqb _ _); [|lra].
    destruct (_ && _); [lra|].
    destruct (Qlt_bool _ _); lra.
  - split; [split; lra|].
    destruct (Qlt_bool _ 0.3) eqn:E1.
    + apply Qlt_bool_true in E1. left. split; [reflexivity | exact E1].
    + apply Qlt_bool_false in E1.
      destruct (Qlt_bool _ 0.6) eqn:E2.
      * apply Qlt_bool_true in E2. right; left. split; [reflexivity | now split].
      * apply Qlt_bool_false in E2. right; right.
        destruct (Qlt_bool 0.7 cap); (split; [reflexivity | exact E2]).
Qed.

(** X5. With [velocity_std >= 0], a terminal initiative (Completed or
    Deprioritized) is given the score 0 and the level "None", and every
    other initiative a score between 0.065 and 0.945 and the level Low,
    Medium or High that the thresholds 0.3 and 0.6 assign to its score; so a
    risk score of 0 identifies exactly the terminal initiatives. *)
Theorem risk_score_zero_iff_terminal :
  forall (ini : initiative) (current_sprint avg_vel velocity_std team_utilization : Q),
    0 <= velocity_std ->
    let r := calculate_initiative_risk_score
               ini current_sprint avg_vel velocity_std team_utilization in
    (terminal ini -> risk_score r = 0 /\ risk_level r = "None"%string) /\
    (~ terminal ini ->
     0.065 <= risk_score r <= 0.945 /\
     ((risk_level r = "Low"%string /\ risk_score r < 0.3) \/
      (risk_level r = "Medium"%string /\ 0.3 <= risk_score r < 0.6) \/
      (risk_level r = "High"%string /\ 0.6 <= risk_score r))) /\
    (risk_score r == 0 <-> terminal ini).
Proof.
  intros ini current_sprint avg_vel velocity_std team_utilization Hstd r.
  assert (Hterm : terminal ini -> risk_score r = 0 /\ risk_level r = "None"%string).
  { intro Ht. subst r. unfold calculate_initiative_risk_score.
    rewrite (terminal_isin ini Ht). split; reflexivity. }
  assert (Hother : ~ terminal ini ->
                   0.065 <= risk_score r <= 0.945 /\
                   ((risk_level r = "Low"%string /\ risk_score r < 0.3) \/
                    (risk_level r = "Medium"%string /\ 0.3 <= risk_score r < 0.6) \/
                    (risk_level r = "High"%string /\ 0.6 <= risk_score r))).
  { intro Hnt.
    exact (proj2 (non_terminal_risk ini current_sprint avg_vel velocity_std
                    team_utilization Hnt Hstd)). }
  split; [exact Hterm|]. split; [exact Hother|]. split.
  - intro Hzero.
    assert (Hdec : terminal ini \/ ~ terminal ini).
    { unfold terminal. destruct (status ini) as [s|]; [|right; intros [H|H]; discriminate].
      destruct (string_dec s "Completed") as [-> | H1]; [left; now left|].
      destruct (string_dec s "Deprioritized") as [-> | H2]; [left; now right|].
      right. intros [H | H]; congruence. }
    destruct Hdec as [Ht | Hnt]; [exact Ht|].
    destruct (Hother Hnt) as [[Hlow _] _]. rewrite Hzero in Hlow. exfalso. lra.
  - intro Ht. destruct (Hterm Ht) as [-> _]. reflexivity.
Qed.

Lemma risk_score_zero_iff_terminal_witness :
  0 <= 4 /\
  ~ terminal sample_initiative /\
  0.065 <= risk_score (calculate_initiative_risk_score sample_initiative 4 40 4 0.9)
        <= 0.945.
Proof.
  assert (Hstd : 0 <= 4) by (unfold Qle; simpl; lia).
  assert (Hnt : ~ terminal sample_initiative).
  { unfold terminal. simpl. intros [H | H]; discriminate H. }
  split; [exact Hstd|]. split; [exact Hnt|].
  exact (proj1 (proj1 (proj2 (risk_score_zero_iff_terminal
                                sample_initiative 4 40 4 0.9 Hstd)) Hnt)).
Defined.

(* ------------------------------------------------------------------ *)
(** ** Risk of all initiatives *)

Lemma mapM_Forall2 {A B : Type} (f : A -> result B) (xs : list A) :
  (forall x, In x xs -> exists y, f x = Ok y) ->
  exists ys, mapM f xs = Ok ys /\ Forall2 (fun x y => f x = Ok y) xs ys.
Proof.
  induction xs as [|x rest IH]; intro Hf; simpl.
  - exists []. split; [reflexivity | constructor].
  - destruct (Hf x (or_introl eq_refl)) as [y Hy].
    destruct IH as [ys [Hys Hall]]; [intros; apply Hf; now right|].
    rewrite Hy, Hys. simpl. exists (y :: ys). split; [reflexivity|].
    now constructor.
Qed.

Lemma Forall2_In_r {A B : Type} (R : A -> B -> Prop) (xs : list A) (ys : list B) :
  Forall2 R xs ys -> forall y, In y ys -> exists x, In x xs /\ R x y.
Proof.
  induction 1 as [|x y xs ys Hxy _ IH]; intros y' Hin; [contradiction|].
  destruct Hin as [<- | Hin].
  - exists x. split; [now left | exact Hxy].
  - destruct (IH y' Hin) as [x' [Hx' Hr]]. exists x'. split; [now right | exact Hr].
Qed.

Lemma Forall2_length_eq {A B : Type} (R : A -> B -> Prop) (xs : list A) (ys : list B) :
  Forall2 R xs ys -> List.length ys = List.length xs.
Proof. induction 1; simpl; congruence. Qed.

Lemma pending_status_not_terminal (r : initiative_row) :
  pending_status r = true -> ~ terminal (as_series r).
Proof.
  unfold pending_status, isin, terminal. simpl. intros Hp [H | H];
    injection H as H; rewrite H in Hp; discriminate Hp.
Qed.

(** The row built for one pending initiative. *)
Lemma risk_row_of_pending (r : initiative_row)
    (current_sprint avg_vel velocity_std team_utilization : Q) :
  pending_status r = true ->
  0 <= velocity_std ->
  exists row,
    risk_row_of r (calculate_initiative_risk_score
                     (as_series r) current_sprint avg_vel velocity_std team_utilization)
    = Ok row /\
    ra_status row = col_status r /\
    0.065 <= ra_risk_score row <= 0.945 /\
    In (ra_risk_level row) ["Low"; "Medium"; "High"]%string.
Proof.
  intros Hp Hstd.
  destruct (non_terminal_risk (as_series r) current_sprint avg_vel velocity_std
              team_utilization (pending_status_not_terminal r Hp) Hstd)
    as [[f [remaining [sprints_avail [Hf [Hrem Hsa]]]]] [Hrange Hlevel]].
  unfold risk_row_of. rewrite Hf, Hrem, Hsa. simpl.
  eexists. split; [reflexivity|]. cbn [ra_status ra_risk_score ra_risk_level].
  split; [reflexivity|]. split; [exact Hrange|].
  destruct Hlevel as [[-> _] | [[-> _] | [-> _]]]; simpl; tauto.
Qed.

(** X6. When at least one initiative is Active or Backlog,
    [assess_all_initiatives_risk] returns one row per Active or Backlog
    initiative, ordered by descending [risk_score]; each row has a score
    between 0.065 and 0.945, a level among Low, Medium and High, and the
    status Active or Backlog. *)
Theorem assess_all_returns_ranked_pending_risks :
  forall (E : Externals) (initiatives_df : list initiative_row) (current_sprint : Q)
         (sprints_df : list sprint_row) (team_utilization : Q),
    (exists r, In r initiatives_df /\ pending_status r = true) ->
    exists rows,
      assess_all_initiatives_risk
        initiatives_df current_sprint sprints_df team_utilization = Ok rows /\
      List.length rows = List.length (filter pending_status initiatives_df) /\
      Sorted (fun a b => ra_risk_score b <= ra_risk_score a) rows /\
      Forall (fun row =>
                0.065 <= ra_risk_score row <= 0.945 /\
                In (ra_risk_level row) ["Low"; "Medium"; "High"]%string /\
                In (ra_status row) ["Active"; "Backlog"]%string)
             rows.
Proof.
  intros E df current_sprint sprints_df team_utilization [r0 [Hin0 Hp0]].
  unfold assess_all_initiatives_risk. fold pending_status.
  set (avg_vel := np_mean (map velocity (tail_n 5 sprints_df))).
  set (velocity_std := np_std (map velocity (tail_n 5 sprints_df))).
  assert (Hstd : 0 <= velocity_std) by apply np_std_nonneg.
  destruct (mapM_Forall2
              (fun ini =>
                 risk_row_of ini
                   (calculate_initiative_risk_score
                      (as_series ini) current_sprint avg_vel velocity_std
                      team_utilization))
              (filter pending_status df)) as [rows [Hrun Hall]].
  { intros r Hr. apply filter_In in Hr. destruct Hr as [_ Hp].
    destruct (risk_row_of_pending r current_sprint avg_vel velocity_std
                team_utilization Hp Hstd) as [row [Hrow _]].
    now exists row. }
  rewrite Hrun. cbn [bind].
  pose proof (Forall2_length_eq _ _ _ Hall) as Hlen.
  destruct rows as [|row0 rows'].
  - exfalso. assert (Hin : In r0 (filter pending_status df))
      by (apply filter_In; now split).
    destruct (filter pending_status df); [contradiction | discriminate Hlen].
  - eexists. split; [reflexivity|].
    pose proof (sort_values_desc_perm risk_row ra_risk_score (row0 :: rows')) as Hperm.
    split; [|split].
    + rewrite <- (Permutation_length Hperm). exact Hlen.
    + apply (sort_values_desc_sorted risk_row ra_risk_score).
    + apply Forall_forall. intros row Hrow.
      apply (Permutation_in _ (Permutation_sym Hperm)) in Hrow.
      destruct (Forall2_In_r _ _ _ Hall row Hrow) as [r [Hr Hbuilt]].
      apply filter_In in Hr. destruct Hr as [_ Hp].
      destruct (risk_row_of_pending r current_sprint avg_vel velocity_std
                  team_utilization Hp Hstd) as [row' [Hrow' [Hst [Hrange Hlevel]]]].
      rewrite Hbuilt in Hrow'. injection Hrow' as <-.
      split; [exact Hrange|]. split; [exact Hlevel|].
      rewrite Hst. unfold pending_status, isin in Hp. simpl in Hp.
      destruct (String.eqb (col_status r) "Active") eqn:E1.
      * apply String.eqb_eq in E1. rewrite E1. now left.
      * destruct (String.eqb (col_status r) "Backlog") eqn:E2; [|discriminate Hp].
        apply String.eqb_eq in E2. rewrite E2. right; now left.
Qed.

Lemma assess_all_returns_ranked_pending_risks_witness :
  (exists r, In r mixed_portfolio /\ pending_status r = true) /\
  exists rows,
    @assess_all_initiatives_risk reference_externals
       mixed_portfolio 5 five_sprints 0.85 = Ok rows /\
    List.length rows = List.length (filter pending_status mixed_portfolio) /\
    Sorted (fun a b => ra_risk_score b <= ra_risk_score a) rows /\
    Forall (fun row =>
              0.065 <= ra_risk_score row <= 0.945 /\
              In (ra_risk_level row) ["Low"; "Medium"; "High"]%string /\
              In (ra_status row) ["Active"; "Backlog"]%string)
           rows.
Proof.
  assert (Hpending : exists r, In r mixed_portfolio /\ pending_status r = true).
  { exists (example_row "INIT-001" 9 3 "Active" 20 5). split; [now left | reflexivity]. }
  split; [exact Hpending|].
  exact (assess_all_returns_ranked_pending_risks
           reference_externals mixed_portfolio 5 five_sprints 0.85 Hpending).
Defined.

(** X7. When no initiative is Active or Backlog (in particular on an empty
    DataFrame), [assess_all_initiatives_risk] does not return an empty
    table: sorting the column-less DataFrame raises [KeyError 'risk_score']. *)
Theorem assess_all_fails_without_pending :
  forall (E : Externals) (initiatives_df : list initiative_row) (current_sprint : Q)
         (sprints_df : list sprint_row) (team_utilization : Q),
    (forall r, In r initiatives_df -> pending_status r = false) ->
    assess_all_initiatives_risk
      initiatives_df current_sprint sprints_df team_utilization
    = Raise (KeyError "risk_score").
Proof.
  intros E df current_sprint sprints_df team_utilization Hnone.
  unfold assess_all_initiatives_risk. fold pending_status.
  assert (Hempty : filter pending_status df = []).
  { induction df as [|r rest IH]; [reflexivity|]. simpl.
    rewrite (Hnone r (or_introl eq_refl)). apply IH.
    intros r' Hr'. apply Hnone. now right. }
  rewrite Hempty. reflexivity.
Qed.

Lemma assess_all_fails_without_pending_witness :
  (forall r, In r one_completed_quick_win -> pending_status r = false) /\
  @assess_all_initiatives_risk reference_externals
     one_completed_quick_win 5 five_sprints 0.85
  = Raise (KeyError "risk_score").
Proof.
  assert (Hnone : forall r, In r one_completed_quick_win -> pending_status r = false).
  { intros r [<- | []]. reflexivity. }
  split; [exact Hnone|].
  exact (assess_all_fails_without_pending
           reference_externals one_completed_quick_win 5 five_sprints 0.85 Hnone).
Defined.

(* ------------------------------------------------------------------ *)
(** ** Dense ranks *)















(* ------------------------------------------------------------------ *)
(** ** Quadrant classification of a DataFrame *)

Lemma mapM_inv {A B : Type} (f : A -> result B) (xs : list A) :
  forall ys, mapM f xs = Ok ys -> Forall2 (fun x y => f x = Ok y) xs ys.
Proof.
  induction xs as [|x rest IH]; simpl; intros ys Hrun.
  - injection Hrun as <-. constructor.
  - destruct (f x) as [y|e] eqn:Hy; simpl in Hrun; [|discriminate Hrun].
    destruct (mapM f rest) as [ys'|e]; simpl in Hrun; [|discriminate Hrun].
    injection Hrun as <-. constructor; [exact Hy | now apply IH].
Qed.

Lemma Forall2_In_l {A B : Type} (R : A -> B -> Prop) (xs : list A) (ys : list B) :
  Forall2 R xs ys -> forall x, In x xs -> exists y, In y ys /\ R x y.
Proof.
  induction 1 as [|x y xs ys Hxy _ IH]; intros x' Hin; [contradiction|].
  destruct Hin as [<- | Hin].
  - exists y. split; [now left | exact Hxy].
  - destruct (IH x' Hin) as [y' [Hy' Hr]]. exists y'. split; [now right | exact Hr].
Qed.

Lemma add_quadrant_classification_rows (df : list initiative_row)
    (classified : list quadrant_row) :
  add_quadrant_classification df = Ok classified ->
  Forall2 classified_from df classified.
Proof.
  unfold add_quadrant_classification. intro Hrun.
  apply mapM_inv in Hrun.
  eapply Forall2_impl; [|exact Hrun].
  intros r c Hc. cbv beta in Hc.
  destruct (categorize_quadrant_cases (as_series r) (col_impact_score r)
              (col_effort_score r) eq_refl eq_refl) as [q [Hq Hcases]].
  rewrite Hq in Hc. simpl in Hc. injection Hc as <-.
  split; [reflexivity | exact Hcases].
Qed.

Lemma Sorted_firstn {A : Type} (R : A -> A -> Prop) (n : nat) (xs : list A) :
  Sorted R xs -> Sorted R (firstn n xs).
Proof.
  revert n. induction xs as [|x rest IH]; intros n Hs.
  - now rewrite firstn_nil.
  - destruct n as [|n]; [constructor|]. simpl.
    inversion Hs as [|? ? Hrest Hhd]; subst.
    constructor; [now apply IH|].
    destruct rest as [|y rest']; [rewrite firstn_nil; constructor|].
    destruct n; simpl; constructor. now inversion Hhd.
Qed.

Lemma In_firstn {A : Type} (n : nat) (xs : list A) (x : A) :
  In x (firstn n xs) -> In x xs.
Proof.
  intro Hin. rewrite <- (firstn_skipn n xs). apply in_or_app. now left.
Qed.

Lemma head_firstn {A : Type} (n : Z) (df : list A) :
  exists k, head n df = firstn k df.
Proof. unfold head. destruct (0 <=? n)%Z; eexists; reflexivity. Qed.

Lemma head_length {A : Type} (n : Z) (df : list A) :
  (0 <= n)%Z -> (Z.of_nat (List.length (head n df)) <= n)%Z.
Proof.
  intro Hn. unfold head. destruct (Z.leb_spec 0 n) as [_ | Hneg]; [|lia].
  rewrite length_firstn. lia.
Qed.

(** X9. [get_time_sinks] returns exactly the initiatives with [impact_score <= 6] and [effort_score > 5] (every
    returned row is such an initiative of the input, and every such
    initiative is returned), ordered by descending [effort_score]. *)
Theorem time_sinks_are_the_low_impact_high_effort_rows :
  forall (E : Externals) (initiatives_df : list initiative_row),
    exists time_sinks,
      get_time_sinks initiatives_df = Ok time_sinks /\
      Sorted (fun a b => col_effort_score (classified_row b)
                         <= col_effort_score (classified_row a)) time_sinks /\
      (forall c, In c time_sinks ->
         In (classified_row c) initiatives_df /\
         quadrant c = "Time Sinks"%string /\
         col_impact_score (classified_row c) <= 6 /\
         5 < col_effort_score (classified_row c)) /\
      (forall r, In r initiatives_df ->
         col_impact_score r <= 6 -> 5 < col_effort_score r ->
         exists c, In c time_sinks /\ classified_row c = r).
Proof.
  intros E df. unfold get_time_sinks.
  destruct (add_quadrant_classification_total df) as [classified [Hrun _]].
  rewrite Hrun. cbn [bind].
  pose proof (add_quadrant_classification_rows df classified Hrun) as Hrows.
  set (time_sinks := filter (fun r => String.eqb (quadrant r) "Time Sinks") classified).
  pose proof (sort_values_desc_perm quadrant_row
                (fun r => col_effort_score (classified_row r)) time_sinks) as Hperm.
  eexists. split; [reflexivity|]. split; [|split].
  - apply (sort_values_desc_sorted quadrant_row
             (fun r => col_effort_score (classified_row r))).
  - intros c Hc. apply (Permutation_in _ (Permutation_sym Hperm)) in Hc.
    apply filter_In in Hc. destruct Hc as [Hc Hq]. apply String.eqb_eq in Hq.
    destruct (Forall2_In_r _ _ _ Hrows c Hc) as [r [Hr [Hrow [_ [_ [_ Hts]]]]]].
    rewrite Hrow. split; [exact Hr|]. split; [exact Hq|]. now apply Hts.
  - intros r Hr Himpact Heffort.
    destruct (Forall2_In_l _ _ _ Hrows r Hr) as [c [Hc [Hrow [_ [_ [_ Hts]]]]]].
    exists c. split; [|exact Hrow].
    apply (Permutation_in _ Hperm). apply filter_In. split; [exact Hc|].
    apply String.eqb_eq. apply Hts. now split.
Qed.

Lemma StronglySorted_app_cross {A : Type} (R : A -> A -> Prop) (xs ys : list A) :
  StronglySorted R (xs ++ ys) -> forall a b, In a xs -> In b ys -> R a b.
Proof.
  induction xs as [|x rest IH]; simpl; intros Hs a b Ha Hb; [contradiction|].
  inversion Hs as [|? ? Hrest Hall]; subst.
  destruct Ha as [<- | Ha].
  - rewrite Forall_forall in Hall. apply Hall. apply in_or_app. now right.
  - now apply IH.
Qed.

(** In a list sorted by descending key, what [head] keeps is at least as
    large as what it drops. *)
Lemma head_keeps_the_largest {A : Type} (key : A -> Q) (n : Z) (xs : list A) :
  Sorted (fun a b => key b <= key a) xs ->
  forall a, In a xs ->
    In a (head n xs) \/ forall b, In b (head n xs) -> key a <= key b.
Proof.
  intros Hs a Ha. destruct (head_firstn n xs) as [k ->].
  assert (Hss : StronglySorted (fun a b => key b <= key a) xs).
  { apply Sorted_StronglySorted; [|exact Hs].
    intros x y z Hxy Hyz. now apply Qle_trans with (key y). }
  rewrite <- (firstn_skipn k xs) in Ha, Hss.
  apply in_app_or in Ha. destruct Ha as [Ha | Ha]; [now left|].
  right. intros b Hb. exact (StronglySorted_app_cross _ _ _ Hss b a Hb Ha).
Qed.

Lemma add_quadrant_column_scored (scored_df : list scored_row) :
  exists classified,
    add_quadrant_column (fun s => as_series (base_row s)) scored_df = Ok classified /\
    Forall2 (fun s p =>
               fst p = s /\
               (snd p = "Quick Wins"%string <->
                6 < col_impact_score (base_row s) /\ col_effort_score (base_row s) <= 5))
            scored_df classified.
Proof.
  unfold add_quadrant_column.
  destruct (mapM_Forall2
              (fun r => q <- categorize_quadrant (as_series (base_row r));; Ok (r, q))
              scored_df) as [classified [Hrun Hall]].
  { intros s _.
    destruct (categorize_quadrant_cases (as_series (base_row s))
                (col_impact_score (base_row s)) (col_effort_score (base_row s))
                eq_refl eq_refl) as [q [Hq _]].
    rewrite Hq. simpl. eexists. reflexivity. }
  exists classified. split; [exact Hrun|].
  eapply Forall2_impl; [|exact Hall].
  intros s p Hp. cbv beta in Hp.
  destruct (categorize_quadrant_cases (as_series (base_row s))
              (col_impact_score (base_row s)) (col_effort_score (base_row s))
              eq_refl eq_refl) as [q [Hq [Hqw _]]].
  rewrite Hq in Hp. simpl in Hp. injection Hp as <-. simpl. now split.
Qed.

(** X10. With [limit >= 0], [get_quick_wins] returns at most [limit] rows, ordered by descending priority score; each
    is a scored row of the input with [impact_score > 6] and
    [effort_score <= 5]; and a quick win of the input that is left out
    scores no higher than any row that is returned. *)
Theorem quick_wins_are_the_top_high_impact_low_effort_rows :
  forall (E : Externals) (initiatives_df : list initiative_row) (limit : Z),
    (0 <= limit)%Z ->
    exists scored_df quick_wins,
      add_priority_scores initiatives_df = Ok scored_df /\
      get_quick_wins initiatives_df limit = Ok quick_wins /\
      (Z.of_nat (List.length quick_wins) <= limit)%Z /\
      Sorted (fun a b => priority_score (fst b) <= priority_score (fst a)) quick_wins /\
      (forall p, In p quick_wins ->
         In (fst p) scored_df /\
         snd p = "Quick Wins"%string /\
         6 < col_impact_score (base_row (fst p)) /\
         col_effort_score (base_row (fst p)) <= 5) /\
      (forall s, In s scored_df ->
         6 < col_impact_score (base_row s) ->
         col_effort_score (base_row s) <= 5 ->
         In (s, "Quick Wins"%string) quick_wins \/
         forall p, In p quick_wins -> priority_score s <= priority_score (fst p)).
Proof.
  intros E df limit Hlimit. unfold get_quick_wins.
  destruct (add_priority_scores_total df) as [scored_df Hscored].
  rewrite Hscored. cbn [bind].
  destruct (add_quadrant_column_scored scored_df) as [classified [Hrun Hrows]].
  rewrite Hrun. cbn [bind].
  set (quick_wins := filter (fun r => String.eqb (snd r) "Quick Wins") classified).
  pose proof (sort_values_desc_perm (scored_row * string)
                (fun r => priority_score (fst r)) quick_wins) as Hperm.
  pose proof (sort_values_desc_sorted (scored_row * string)
                (fun r => priority_score (fst r)) quick_wins) as Hsorted.
  exists scored_df. eexists. split; [reflexivity|]. split; [reflexivity|].
  split; [now apply head_length|]. split; [|split].
  - destruct (head_firstn limit (sort_values_desc
                                   (fun r => priority_score (fst r)) quick_wins))
      as [k ->].
    now apply Sorted_firstn.
  - intros p Hp.
    destruct (head_firstn limit (sort_values_desc
                                   (fun r => priority_score (fst r)) quick_wins))
      as [k Hk].
    rewrite Hk in Hp. apply In_firstn in Hp.
    apply (Permutation_in _ (Permutation_sym Hperm)) in Hp.
    apply filter_In in Hp. destruct Hp as [Hp Hq]. apply String.eqb_eq in Hq.
    destruct (Forall2_In_r _ _ _ Hrows p Hp) as [s [Hs [Hfst Hqw]]].
    rewrite Hfst. split; [exact Hs|]. split; [exact Hq|]. now apply Hqw.
  - intros s Hs Himpact Heffort.
    destruct (Forall2_In_l _ _ _ Hrows s Hs) as [p [Hp [Hfst Hqw]]].
    assert (Hlabel : snd p = "Quick Wins"%string) by (apply Hqw; now split).
    assert (Hpeq : p = (s, "Quick Wins"%string)).
    { destruct p as [s0 q0]. simpl in *. now subst. }
    subst p.
    assert (Hin : In (s, "Quick Wins"%string)
                     (sort_values_desc (fun r => priority_score (fst r)) quick_wins)).
    { apply (Permutation_in _ Hperm). apply filter_In. split; [exact Hp|].
      reflexivity. }
    destruct (head_keeps_the_largest (fun r => priority_score (fst r)) limit _
                Hsorted _ Hin) as [Hkept | Hdropped]; [now left|].
    right. intros p Hp'. exact (Hdropped p Hp').
Qed.

Lemma quick_wins_are_the_top_high_impact_low_effort_rows_witness :
  (0 <= 10)%Z /\
  exists scored_df quick_wins,
    add_priority_scores mixed_portfolio = Ok scored_df /\
    @get_quick_wins reference_externals mixed_portfolio 10 = Ok quick_wins /\
    (Z.of_nat (List.length quick_wins) <= 10)%Z /\
    Sorted (fun a b => priority_score (fst b) <= priority_score (fst a)) quick_wins /\
    (forall p, In p quick_wins ->
       In (fst p) scored_df /\
       snd p = "Quick Wins"%string /\
       6 < col_impact_score (base_row (fst p)) /\
       col_effort_score (base_row (fst p)) <= 5) /\
    (forall s, In s scored_df ->
       6 < col_impact_score (base_row s) ->
       col_effort_score (base_row s) <= 5 ->
       In (s, "Quick Wins"%string) quick_wins \/
       forall p, In p quick_wins -> priority_score s <= priority_score (fst p)).
Proof.
  assert (Hlimit : (0 <= 10)%Z) by lia.
  split; [exact Hlimit|].
  exact (quick_wins_are_the_top_high_impact_low_effort_rows
           reference_externals mixed_portfolio 10 Hlimit).
Defined.

(* ------------------------------------------------------------------ *)
(** ** [groupby] *)

Lemma ltb_compare (a b : string) : String.ltb a b = true <-> String.compare a b = Lt.
Proof.
  unfold String.ltb. destruct (String.compare a b); split; congruence.
Qed.

Lemma ltb_trans (a b c : string) :
  String.ltb a b = true -> String.ltb b c = true -> String.ltb a c = true.
Proof.
  rewrite !ltb_compare. intros Hab Hbc.
  apply OrderedTypeEx.String_as_OT.cmp_lt.
  apply OrderedTypeEx.String_as_OT.lt_trans with b;
    now apply OrderedTypeEx.String_as_OT.cmp_lt.
Qed.

Lemma ltb_irrefl (a : string) : String.ltb a a = false.
Proof.
  destruct (String.ltb a a) eqn:E; [|reflexivity].
  apply ltb_compare in E. pose proof (String.compare_antisym a a) as H.
  rewrite E in H. discriminate H.
Qed.

Lemma ltb_total (a b : string) :
  String.eqb a b = false -> String.ltb a b = false -> String.ltb b a = true.
Proof.
  intros Heq Hlt. apply ltb_compare.
  pose proof (String.compare_antisym b a) as Hanti.
  destruct (String.compare a b) eqn:E; simpl in Hanti.
  - apply String.compare_eq_iff in E. subst. rewrite String.eqb_refl in Heq.
    discriminate Heq.
  - assert (String.ltb a b = true) by now apply ltb_compare. congruence.
  - exact Hanti.
Qed.

Lemma keys_ascending_notin {A : Type} (k k' : string) (xs : list A)
    (rest : list (string * list A)) :
  keys_ascending ((k', xs) :: rest) ->
  String.ltb k k' = true ->
  ~ In k (map fst ((k', xs) :: rest)).
Proof.
  intros Hs Hlt Hin. inversion Hs as [|? ? _ Hall]; subst.
  simpl in Hin. destruct Hin as [Heq | Hin].
  - subst. rewrite ltb_irrefl in Hlt. discriminate Hlt.
  - apply in_map_iff in Hin. destruct Hin as [[k'' ys] [Hk'' Hin]].
    simpl in Hk''. subst k''.
    rewrite Forall_forall in Hall. specialize (Hall _ Hin). simpl in Hall.
    pose proof (ltb_trans _ _ _ Hlt Hall) as Hbad.
    rewrite ltb_irrefl in Hbad. discriminate Hbad.
Qed.

Lemma group_insert_keys {A : Type} (k : string) (x : A) (groups : list (string * list A)) :
  forall k0, In k0 (map fst (group_insert k x groups)) <->
             k = k0 \/ In k0 (map fst groups).
Proof.
  induction groups as [|[k' xs] rest IH]; intro k0; simpl.
  - tauto.
  - destruct (String.eqb k k') eqn:E.
    + apply String.eqb_eq in E. subst. simpl. tauto.
    + destruct (String.ltb k k'); simpl; [tauto|]. rewrite IH. tauto.
Qed.

Lemma group_insert_ascending {A : Type} (k : string) (x : A)
    (groups : list (string * list A)) :
  keys_ascending groups -> keys_ascending (group_insert k x groups).
Proof.
  unfold keys_ascending.
  induction groups as [|[k' xs] rest IH]; intro Hs; simpl.
  - repeat constructor.
  - inversion Hs as [|? ? Hrest Hall]; subst.
    destruct (String.eqb k k') eqn:E.
    + constructor; [exact Hrest | exact Hall].
    + destruct (String.ltb k k') eqn:L.
      * constructor; [exact Hs|]. constructor; [exact L|].
        rewrite Forall_forall in *. intros g Hg. simpl.
        apply ltb_trans with k'; [exact L | exact (Hall g Hg)].
      * constructor; [now apply IH|].
        rewrite Forall_forall in *. intros [k0 ys] Hg. simpl.
        assert (Hk0 : In k0 (map fst (group_insert k x rest))).
        { apply in_map_iff. exists (k0, ys). now split. }
        apply group_insert_keys in Hk0. destruct Hk0 as [<- | Hk0].
        -- now apply ltb_total.
        -- apply in_map_iff in Hk0. destruct Hk0 as [g [<- Hg']].
           exact (Hall g Hg').
Qed.

Lemma groupby_ascending {A : Type} (key : A -> string) (df : list A) :
  keys_ascending (groupby key df).
Proof.
  induction df as [|x rest IH]; simpl.
  - constructor.
  - now apply group_insert_ascending.
Qed.

Lemma groupby_keys {A : Type} (key : A -> string) (df : list A) (k : string) :
  In k (map fst (groupby key df)) <-> exists x, In x df /\ key x = k.
Proof.
  induction df as [|x rest IH]; simpl.
  - split; [contradiction | intros [? [[] _]]].
  - rewrite group_insert_keys, IH. split.
    + intros [<- | [y [Hy Hk]]]; [exists x; tauto | exists y; tauto].
    + intros [y [[<- | Hy] Hk]]; [now left | right; now exists y].
Qed.

(** Where a group of [group_insert k x groups] comes from. *)
Lemma group_insert_In {A : Type} (k : string) (x : A) (groups : list (string * list A))
    (k0 : string) (xs : list A) :
  keys_ascending groups ->
  In (k0, xs) (group_insert k x groups) ->
  (k0 <> k /\ In (k0, xs) groups) \/
  (k0 = k /\ ((exists xs0, xs = x :: xs0 /\ In (k, xs0) groups) \/
              (xs = [x] /\ ~ In k (map fst groups)))).
Proof.
  induction groups as [|[k' ys] rest IH]; intros Hs Hin; simpl in Hin.
  - destruct Hin as [Heq | []]. injection Heq as <- <-. right. split; [reflexivity|].
    right. split; [reflexivity | intros []].
  - destruct (String.eqb k k') eqn:E.
    + apply String.eqb_eq in E. subst k'.
      destruct Hin as [Heq | Hin].
      * injection Heq as <- <-. right. split; [reflexivity|]. left.
        exists ys. split; [reflexivity | now left].
      * left. split; [|now right].
        intros ->. inversion Hs as [|? ? _ Hall]; subst.
        rewrite Forall_forall in Hall. specialize (Hall _ Hin). simpl in Hall.
        rewrite ltb_irrefl in Hall. discriminate Hall.
    + destruct (String.ltb k k') eqn:L.
      * destruct Hin as [Heq | Hin].
        -- injection Heq as <- <-. right. split; [reflexivity|]. right.
           split; [reflexivity|]. now apply keys_ascending_notin.
        -- left. split; [|exact Hin].
           intros ->. apply (keys_ascending_notin k k' ys rest Hs L).
           apply in_map_iff. exists (k, xs). now split.
      * destruct Hin as [Heq | Hin].
        -- injection Heq as <- <-. left. split; [|now left].
           intros ->. rewrite String.eqb_refl in E. discriminate E.
        -- inversion Hs as [|? ? Hrest Hall]; subst.
           destruct (IH Hrest Hin) as [[Hne Hold] | [-> [[xs0 [-> Hold]] | [-> Hnew]]]].
           ++ left. split; [exact Hne | now right].
           ++ right. split; [reflexivity|]. left. exists xs0.
              split; [reflexivity | now right].
           ++ right. split; [reflexivity|]. right. split; [reflexivity|].
              simpl. intros [Heq | Hin']; [|now apply Hnew].
              subst. rewrite String.eqb_refl in E. discriminate E.
Qed.

Lemma filter_none {A : Type} (p : A -> bool) (xs : list A) :
  (forall x, In x xs -> p x = false) -> filter p xs = [].
Proof.
  induction xs as [|x rest IH]; intro Hp; [reflexivity|]. simpl.
  rewrite (Hp x (or_introl eq_refl)). apply IH. intros; apply Hp; now right.
Qed.

(** Each group holds exactly the rows with its key, in DataFrame order. *)
Lemma groupby_group {A : Type} (key : A -> string) (df : list A)
    (k : string) (xs : list A) :
  In (k, xs) (groupby key df) ->
  xs = filter (fun x => String.eqb (key x) k) df /\ xs <> [].
Proof.
  revert k xs. induction df as [|x rest IH]; intros k xs Hin; simpl in Hin.
  - contradiction.
  - apply group_insert_In in Hin; [|apply groupby_ascending]. simpl.
    destruct Hin as [[Hne Hold] | [-> [[xs0 [-> Hold]] | [-> Hnew]]]].
    + destruct (String.eqb (key x) k) eqn:E;
        [apply String.eqb_eq in E; congruence|].
      now apply IH.
    + rewrite String.eqb_refl. split; [|discriminate].
      f_equal. now apply IH.
    + rewrite String.eqb_refl. split; [|discriminate]. f_equal.
      symmetry. apply filter_none. intros y Hy.
      destruct (String.eqb (key y) (key x)) eqn:E; [|reflexivity].
      apply String.eqb_eq in E. exfalso. apply Hnew.
      apply groupby_keys. now exists y.
Qed.

Lemma group_insert_count {A : Type} (k : string) (x : A) (groups : list (string * list A)) :
  list_sum (map (fun g => List.length (snd g)) (group_insert k x groups))
  = S (list_sum (map (fun g => List.length (snd g)) groups)).
Proof.
  induction groups as [|[k' xs] rest IH]; simpl; [reflexivity|].
  destruct (String.eqb k k'); simpl; [lia|].
  destruct (String.ltb k k'); simpl; [lia|]. rewrite IH. lia.
Qed.

(** The groups partition the DataFrame. *)
Lemma groupby_count {A : Type} (key : A -> string) (df : list A) :
  list_sum (map (fun g => List.length (snd g)) (groupby key df)) = List.length df.
Proof.
  induction df as [|x rest IH]; simpl; [reflexivity|].
  now rewrite group_insert_count, IH.
Qed.

Lemma keys_ascending_nodup {A : Type} (groups : list (string * list A)) :
  keys_ascending groups -> NoDup (map fst groups).
Proof.
  induction 1 as [|[k xs] rest Hrest IH Hall]; simpl; constructor; [|exact IH].
  intro Hin. apply in_map_iff in Hin. destruct Hin as [g [Hk Hg]].
  rewrite Forall_forall in Hall. specialize (Hall g Hg). simpl in Hall, Hk.
  rewrite Hk, ltb_irrefl in Hall. discriminate Hall.
Qed.

(* ------------------------------------------------------------------ *)
(** ** Portfolio composition *)

Lemma StronglySorted_map {A B : Type} (R : B -> B -> Prop) (f : A -> B) (xs : list A) :
  StronglySorted (fun a b => R (f a) (f b)) xs -> StronglySorted R (map f xs).
Proof.
  induction 1 as [|x rest Hrest IH Hall]; simpl; constructor; [exact IH|].
  rewrite Forall_forall in *. intros y Hy. apply in_map_iff in Hy.
  destruct Hy as [x' [<- Hx']]. exact (Hall x' Hx').
Qed.

Lemma classified_label (r : initiative_row) (c : quadrant_row) :
  classified_from r c ->
  In (quadrant c) ["Fill-ins"; "Major Projects"; "Quick Wins"; "Time Sinks"]%string.
Proof.
  intros [_ [Hqw [Hmp [Hfi Hts]]]]. simpl.
  destruct (Qlt_le_dec 6 (col_impact_score r)) as [Hi | Hi];
    destruct (Qlt_le_dec 5 (col_effort_score r)) as [He | He].
  - right; left. symmetry. apply Hmp. now split.
  - right; right; left. symmetry. apply Hqw. now split.
  - right; right; right; left. symmetry. apply Hts. now split.
  - left. symmetry. apply Hfi. now split.
Qed.

(** X11. [get_portfolio_composition] returns one row per quadrant that
    occurs, in alphabetical order of the quadrant
    names and without repetition; each row's [initiative_count] is the
    number of initiatives classified into that quadrant (at least 1), and
    the counts add up to the number of initiatives. *)
Theorem composition_partitions_the_portfolio :
  forall (initiatives_df : list initiative_row),
    exists classified composition,
      add_quadrant_classification initiatives_df = Ok classified /\
      get_portfolio_composition initiatives_df = Ok composition /\
      list_sum (map (fun c => agg_initiative_count (aggregate c)) composition)
      = List.length initiatives_df /\
      StronglySorted
        (fun a b => String.ltb (agg_quadrant (aggregate a))
                               (agg_quadrant (aggregate b)) = true)
        composition /\
      NoDup (map (fun c => agg_quadrant (aggregate c)) composition) /\
      (forall c, In c composition ->
         In (agg_quadrant (aggregate c))
            ["Fill-ins"; "Major Projects"; "Quick Wins"; "Time Sinks"]%string /\
         (1 <= agg_initiative_count (aggregate c))%nat /\
         agg_initiative_count (aggregate c)
         = count_quadrant (agg_quadrant (aggregate c)) classified).
Proof.
  intros df. unfold get_portfolio_composition.
  destruct (add_quadrant_classification_total df) as [classified [Hrun Hlen]].
  rewrite Hrun. cbn [bind]. cbv zeta.
  pose proof (add_quadrant_classification_rows df classified Hrun) as Hrows.
  pose proof (groupby_ascending quadrant classified) as Hasc.
  exists classified. eexists. split; [reflexivity|]. split; [reflexivity|].
  split; [|split; [|split]].
  - rewrite !map_map. cbn [aggregate agg_initiative_count].
    rewrite <- Hlen. apply groupby_count.
  - rewrite map_map. apply StronglySorted_map. exact Hasc.
  - rewrite !map_map. cbn [aggregate agg_quadrant].
    exact (keys_ascending_nodup _ Hasc).
  - intros c Hc. rewrite map_map in Hc. apply in_map_iff in Hc.
    destruct Hc as [[k xs] [<- Hg]]. cbn [aggregate agg_quadrant agg_initiative_count fst snd].
    destruct (groupby_group quadrant classified k xs Hg) as [Hxs Hne].
    split; [|split].
    + assert (Hk : In k (map fst (groupby quadrant classified))).
      { apply in_map_iff. exists (k, xs). now split. }
      apply groupby_keys in Hk. destruct Hk as [c [Hc <-]].
      destruct (Forall2_In_r _ _ _ Hrows c Hc) as [r [_ Hfrom]].
      exact (classified_label r c Hfrom).
    + destruct xs; [congruence | simpl; lia].
    + unfold count_quadrant. now rewrite Hxs.
Qed.







(* ------------------------------------------------------------------ *)
(** ** Intake funnel *)

Lemma three_status_counts (df : list initiative_row) :
  (status_count "Backlog" df + status_count "Active" df + status_count "Completed" df
   <= List.length df)%nat.
Proof.
  unfold status_count. induction df as [|r rest IH]; simpl; [lia|].
  destruct (String.eqb (col_status r) "Backlog") eqn:E1.
  - apply String.eqb_eq in E1. rewrite E1. simpl. lia.
  - destruct (String.eqb (col_status r) "Active") eqn:E2.
    + apply String.eqb_eq in E2. rewrite E2. simpl. lia.
    + destruct (String.eqb (col_status r) "Completed"); simpl; lia.
Qed.

Lemma share_in_range (count total : nat) :
  (count <= total)%nat ->
  0 <= (if (0 <? total)%nat then Qnat count / Qnat total * 100 else 0) <= 100.
Proof.
  intro Hle. destruct (Nat.ltb_spec 0 total) as [Hpos | _]; [|lra].
  pose proof (Qnat_ratio_in_unit count total Hle Hpos) as [H0 H1].
  split; lra.
Qed.

(** X13. [create_intake_funnel_data] returns the four stages Submitted,
    Backlog, Active, Completed in this order.  Submitted counts every
    initiative at 100%; the other three counts add up to at most the
    Submitted count, each of their percentages lies in [0,100], the three
    percentages add up to at most 100, and they are 0 on an empty
    DataFrame. *)
Theorem intake_funnel_stages :
  forall (initiatives_df : list initiative_row),
    exists submitted backlog active completed,
      create_intake_funnel_data initiatives_df
      = [submitted; backlog; active; completed] /\
      map stage [submitted; backlog; active; completed]
      = ["Submitted"; "Backlog"; "Active"; "Completed"]%string /\
      stage_count submitted = List.length initiatives_df /\
      percentage submitted = 100 /\
      (stage_count backlog + stage_count active + stage_count completed
       <= stage_count submitted)%nat /\
      0 <= percentage backlog <= 100 /\
      0 <= percentage active <= 100 /\
      0 <= percentage completed <= 100 /\
      percentage backlog + percentage active + percentage completed <= 100 /\
      (initiatives_df = [] ->
       percentage backlog = 0 /\ percentage active = 0 /\ percentage completed = 0).
Proof.
  intro df. unfold create_intake_funnel_data. do 4 eexists.
  split; [reflexivity|]. cbn [map stage stage_count percentage].
  split; [reflexivity|]. split; [reflexivity|]. split; [reflexivity|].
  pose proof (three_status_counts df) as Hsum.
  split; [exact Hsum|].
  split; [apply share_in_range; lia|].
  split; [apply share_in_range; lia|].
  split; [apply share_in_range; lia|].
  split.
  - destruct (Nat.ltb_spec 0 (List.length df)) as [Hpos | _]; [|lra].
    pose proof (Qnat_pos _ Hpos) as Htotal.
    assert (Hq : Qnat (status_count "Backlog" df) + Qnat (status_count "Active" df)
                 + Qnat (status_count "Completed" df) <= Qnat (List.length df)).
    { unfold Qnat. rewrite <- !inject_Z_plus, <- Zle_Qle. lia. }
    assert (Hdiv : (Qnat (status_count "Backlog" df) + Qnat (status_count "Active" df)
                    + Qnat (status_count "Completed" df)) / Qnat (List.length df) <= 1).
    { apply Qle_shift_div_r; [exact Htotal | now rewrite Qmult_1_l]. }
    unfold Qdiv in *. lra.
  - intros ->. simpl. repeat split; reflexivity.
Qed.

(* ------------------------------------------------------------------ *)
(** ** Sprint metrics *)

Lemma consistency_in_unit (std avg : Q) :
  0 <= std -> 0 < avg -> 0 <= 1 - py_min (std / avg) 1 <= 1.
Proof.
  intros Hstd Havg.
  pose proof (Qdiv_nonneg std avg Hstd Havg) as Hcv.
  pose proof (py_min_le_right (std / avg) 1) as Hle.
  assert (Hge : 0 <= py_min (std / avg) 1) by (apply py_min_lower; lra).
  split; lra.
Qed.

Lemma py_max_zero_id (x : Q) : 0 <= x -> py_max 0 x == x.
Proof.
  intro Hx. unfold py_max. destruct (Qlt_bool 0 x) eqn:E; [reflexivity|].
  apply Qlt_bool_false in E. lra.
Qed.

(** X14. When the mean velocity is not negative,
    [calculate_predictability_score] returns a number of [0,1]. *)
Theorem predictability_score_in_unit_interval :
  forall (E : Externals) (sprints_df : list sprint_row),
    0 <= np_mean (map velocity sprints_df) ->
    0 <= calculate_predictability_score sprints_df <= 1.
Proof.
  intros E df Hmean. unfold calculate_predictability_score.
  destruct (Qeq_bool _ 0) eqn:Ez; [lra|].
  apply Qeq_bool_neq in Ez.
  assert (Hpos : 0 < np_mean (map velocity df)).
  { apply Qle_lteq in Hmean. destruct Hmean as [H | H]; [exact H|].
    exfalso. apply Ez. now symmetry. }
  pose proof (consistency_in_unit _ _ (np_std_nonneg E (map velocity df)) Hpos)
    as [Hlo Hhi].
  split.
  - apply py_max_lower.
  - apply py_max_upper; [lra | exact Hhi].
Qed.

Lemma predictability_score_in_unit_interval_witness :
  0 <= np_mean (map velocity five_sprints) /\
  0 <= @calculate_predictability_score reference_externals five_sprints <= 1.
Proof.
  assert (Hmean : 0 <= np_mean (map velocity five_sprints))
    by (vm_compute; discriminate).
  split; [exact Hmean|].
  exact (predictability_score_in_unit_interval reference_externals five_sprints Hmean).
Defined.

(** X15. [calculate_sprint_health_score] raises [KeyError 'completion_rate']
    when the sprint has no completion rate.  Otherwise it returns; and when
    the completion rate is not negative, the estimation accuracy (0.85 if
    absent) lies in [0,1] and the stories with blockers (0 if absent) are
    between 0 and the story count (1 if absent), the health score and its
    four components all lie in [0,100]. *)
Theorem sprint_health_score_in_range :
  forall (E : Externals) (sprint : sprint_data) (sprints_history : list sprint_row),
    (sd_completion_rate sprint = None ->
     calculate_sprint_health_score sprint sprints_history
     = Raise (KeyError "completion_rate")) /\
    (forall rate,
        sd_completion_rate sprint = Some rate ->
        0 <= rate ->
        0 <= dict_get (sd_avg_estimation_accuracy sprint) 0.85 <= 1 ->
        0 <= dict_get (sd_stories_with_blockers sprint) 0
          <= dict_get (sd_stories_count sprint) 1 ->
        exists h,
          calculate_sprint_health_score sprint sprints_history = Ok h /\
          0 <= sh_health_score h <= 100 /\
          0 <= sh_velocity_consistency h <= 100 /\
          0 <= sh_estimation_accuracy h <= 100 /\
          0 <= sh_completion_rate h <= 100 /\
          0 <= sh_blocker_impact h <= 100).
Proof.
  intros E sprint history. split.
  - intro Hnone. unfold calculate_sprint_health_score. now rewrite Hnone.
  - intros rate Hrate Hnonneg Hacc Hblock.
    unfold calculate_sprint_health_score. rewrite Hrate. cbn [dict_item bind].
    eexists. split; [reflexivity|].
    cbn [sh_health_score sh_velocity_consistency sh_estimation_accuracy
         sh_completion_rate sh_blocker_impact].
    set (acc := dict_get (sd_avg_estimation_accuracy sprint) 0.85) in *.
    set (blockers := dict_get (sd_stories_with_blockers sprint) 0) in *.
    set (stories := dict_get (sd_stories_count sprint) 1) in *.
    assert (Hcons : 0 <= py_max 0
                          (if Qlt_bool 0 (np_mean (map velocity history))
                           then 1 - py_min (np_std (map velocity history)
                                            / np_mean (map velocity history)) 1
                           else 0) <= 1).
    { split; [apply py_max_lower|]. apply py_max_upper; [lra|].
      destruct (Qlt_bool 0 _) eqn:Epos; [|lra].
      apply Qlt_bool_true in Epos.
      exact (proj2 (consistency_in_unit _ _
                      (np_std_nonneg E (map velocity history)) Epos)). }
    set (consistency := py_max 0 _) in *.
    assert (Hcapped : 0 <= py_min 1 rate <= 1).
    { split; [apply py_min_lower; lra | apply py_min_upper]. }
    set (capped := py_min 1 rate) in *.
    assert (Hrate' : 0 <= (if Qlt_bool 0 stories then blockers / stories else 0) <= 1).
    { destruct (Qlt_bool 0 stories) eqn:Epos; [|lra].
      apply Qlt_bool_true in Epos. split.
      - apply Qdiv_nonneg; [tauto | exact Epos].
      - apply Qle_shift_div_r; [exact Epos|]. rewrite Qmult_1_l. tauto. }
    set (blocker_rate := if Qlt_bool 0 stories then _ else _) in *.
    repeat split; lra.
Qed.

Lemma sprint_health_score_in_range_witness :
  sd_completion_rate sample_sprint = Some 0.95 /\
  0 <= 0.95 /\
  0 <= dict_get (sd_avg_estimation_accuracy sample_sprint) 0.85 <= 1 /\
  0 <= dict_get (sd_stories_with_blockers sample_sprint) 0
    <= dict_get (sd_stories_count sample_sprint) 1 /\
  exists h,
    @calculate_sprint_health_score reference_externals sample_sprint five_sprints
    = Ok h /\
    0 <= sh_health_score h <= 100 /\
    0 <= sh_velocity_consistency h <= 100 /\
    0 <= sh_estimation_accuracy h <= 100 /\
    0 <= sh_completion_rate h <= 100 /\
    0 <= sh_blocker_impact h <= 100.
Proof.
  assert (Hrate : sd_completion_rate sample_sprint = Some 0.95) by reflexivity.
  assert (Hnonneg : 0 <= 0.95) by (vm_compute; discriminate).
  assert (Hacc : 0 <= dict_get (sd_avg_estimation_accuracy sample_sprint) 0.85 <= 1)
    by (split; vm_compute; discriminate).
  assert (Hblock : 0 <= dict_get (sd_stories_with_blockers sample_sprint) 0
                     <= dict_get (sd_stories_count sample_sprint) 1)
    by (split; vm_compute; discriminate).
  split; [exact Hrate|]. split; [exact Hnonneg|].
  split; [exact Hacc|]. split; [exact Hblock|].
  exact (proj2 (sprint_health_score_in_range
                  reference_externals sample_sprint five_sprints)
               0.95 Hrate Hnonneg Hacc Hblock).
Defined.

(** X16. When the mean velocity of the history is not negative, the
    [velocity_consistency] component of the sprint health is 100 times the
    predictability score of the same history. *)
Theorem velocity_consistency_is_predictability :
  forall (E : Externals) (sprint : sprint_data) (sprints_history : list sprint_row)
         (h : sprint_health),
    0 <= np_mean (map velocity sprints_history) ->
    calculate_sprint_health_score sprint sprints_history = Ok h ->
    sh_velocity_consistency h == calculate_predictability_score sprints_history * 100.
Proof.
  intros E sprint history h Hmean Hrun.
  unfold calculate_sprint_health_score in Hrun.
  destruct (sd_completion_rate sprint) as [rate|]; [|discriminate Hrun].
  cbn [dict_item bind] in Hrun. injection Hrun as <-.
  cbn [sh_velocity_consistency]. unfold calculate_predictability_score.
  destruct (Qeq_bool _ 0) eqn:Ez.
  - apply Qeq_bool_iff in Ez.
    assert (Hnot : Qlt_bool 0 (np_mean (map velocity history)) = false).
    { apply Qlt_bool_false. rewrite Ez. apply Qle_refl. }
    rewrite Hnot. reflexivity.
  - apply Qeq_bool_neq in Ez.
    assert (Hpos : Qlt_bool 0 (np_mean (map velocity history)) = true).
    { apply Qlt_bool_true. apply Qle_lteq in Hmean.
      destruct Hmean as [H | H]; [exact H|]. exfalso. apply Ez. now symmetry. }
    rewrite Hpos. reflexivity.
Qed.

Lemma velocity_consistency_is_predictability_witness :
  0 <= np_mean (map velocity five_sprints) /\
  @calculate_sprint_health_score reference_externals sample_sprint five_sprints
  = Ok sample_sprint_health /\
  sh_velocity_consistency sample_sprint_health
  == @calculate_predictability_score reference_externals five_sprints * 100.
Proof.
  assert (Hmean : 0 <= np_mean (map velocity five_sprints))
    by (vm_compute; discriminate).
  assert (Hrun : @calculate_sprint_health_score reference_externals
                    sample_sprint five_sprints = Ok sample_sprint_health)
    by (vm_compute; reflexivity).
  split; [exact Hmean|]. split; [exact Hrun|].
  exact (velocity_consistency_is_predictability
           reference_externals sample_sprint five_sprints sample_sprint_health
           Hmean Hrun).
Defined.

(** X17. For a sprint with a positive team capacity, the status given by
    [calculate_capacity_utilization] and the utilization factor that
    [calculate_initiative_risk_score] gives to a non-terminal initiative at
    [team_utilization = completed_points / team_capacity] follow the same
    cut-offs: Over-utilized goes with 0.9, At capacity with 0.5, Healthy
    with 0.2 and Under-utilized with 0.4. *)
Theorem utilization_status_matches_risk_factor :
  forall (sprint : sprint_data) (capacity committed completed : Q)
         (ini : initiative) (current_sprint avg_vel velocity_std : Q),
    sd_team_capacity sprint = Some capacity ->
    sd_committed_points sprint = Some committed ->
    sd_completed_points sprint = Some completed ->
    0 < capacity ->
    ~ terminal ini ->
    exists u f,
      calculate_capacity_utilization sprint = Ok u /\
      factors (calculate_initiative_risk_score
                 ini current_sprint avg_vel velocity_std (completed / capacity))
      = Some f /\
      actual_utilization u == completed / capacity * 100 /\
      ((utilization_status u = "Over-utilized"%string /\ utilization_risk f = 0.9) \/
       (utilization_status u = "At capacity"%string /\ utilization_risk f = 0.5) \/
       (utilization_status u = "Healthy"%string /\ utilization_risk f = 0.2) \/
       (utilization_status u = "Under-utilized"%string /\ utilization_risk f = 0.4)).
Proof.
  intros sprint capacity committed completed ini current_sprint avg_vel velocity_std
         Hcap Hcom Hdone Hpos Hnt.
  unfold calculate_capacity_utilization. rewrite Hcap, Hcom, Hdone.
  cbn [dict_item bind].
  unfold calculate_initiative_risk_score. rewrite (non_terminal_isin ini Hnt).
  cbv zeta. cbn [factors].
  apply Qlt_bool_true in Hpos. rewrite Hpos.
  do 2 eexists. split; [reflexivity|]. split; [reflexivity|].
  cbn [actual_utilization utilization_status utilization_risk].
  split; [reflexivity|].
  set (x := completed / capacity).
  destruct (Qlt_bool 105 (x * 100)) eqn:E1;
    [apply Qlt_bool_true in E1 | apply Qlt_bool_false in E1];
  (destruct (Qlt_bool 1.05 x) eqn:F1;
    [apply Qlt_bool_true in F1 | apply Qlt_bool_false in F1]);
  try (exfalso; lra); [left; now split|].
  destruct (Qlt_bool 95 (x * 100)) eqn:E2;
    [apply Qlt_bool_true in E2 | apply Qlt_bool_false in E2];
  (destruct (Qlt_bool 0.95 x) eqn:F2;
    [apply Qlt_bool_true in F2 | apply Qlt_bool_false in F2]);
  try (exfalso; lra); [right; left; now split|].
  destruct (Qlt_bool 70 (x * 100)) eqn:E3;
    [apply Qlt_bool_true in E3 | apply Qlt_bool_false in E3];
  (destruct (Qlt_bool 0.70 x) eqn:F3;
    [apply Qlt_bool_true in F3 | apply Qlt_bool_false in F3]);
  try (exfalso; lra);
  [right; right; left; now split | right; right; right; now split].
Qed.

Lemma utilization_status_matches_risk_factor_witness :
  sd_team_capacity sample_sprint = Some 42 /\
  sd_committed_points sample_sprint = Some 40 /\
  sd_completed_points sample_sprint = Some 38 /\
  0 < 42 /\
  ~ terminal sample_initiative /\
  exists u f,
    calculate_capacity_utilization sample_sprint = Ok u /\
    factors (calculate_initiative_risk_score sample_initiative 4 40 4 (38 / 42))
    = Some f /\
    actual_utilization u == 38 / 42 * 100 /\
    ((utilization_status u = "Over-utilized"%string /\ utilization_risk f = 0.9) \/
     (utilization_status u = "At capacity"%string /\ utilization_risk f = 0.5) \/
     (utilization_status u = "Healthy"%string /\ utilization_risk f = 0.2) \/
     (utilization_status u = "Under-utilized"%string /\ utilization_risk f = 0.4)).
Proof.
  assert (Hcap : sd_team_capacity sample_sprint = Some 42) by reflexivity.
  assert (Hcom : sd_committed_points sample_sprint = Some 40) by reflexivity.
  assert (Hdone : sd_completed_points sample_sprint = Some 38) by reflexivity.
  assert (Hpos : 0 < 42) by reflexivity.
  assert (Hnt : ~ terminal sample_initiative).
  { unfold terminal. simpl. intros [H | H]; discriminate H. }
  repeat (split; [assumption|]).
  exact (utilization_status_matches_risk_factor
           sample_sprint 42 40 38 sample_initiative 4 40 4 Hcap Hcom Hdone Hpos Hnt).
Defined.

(** X18. [calculate_bug_ratio] and [calculate_carryover_rate] return a
    number of [0,1], and 0 on an empty DataFrame. *)
Theorem story_ratios_in_unit_interval :
  forall (stories_df : list story_row),
    0 <= calculate_bug_ratio stories_df <= 1 /\
    0 <= calculate_carryover_rate stories_df <= 1 /\
    (stories_df = [] ->
     calculate_bug_ratio stories_df = 0 /\ calculate_carryover_rate stories_df = 0).
Proof.
  intro df. unfold calculate_bug_ratio, calculate_carryover_rate.
  split; [|split].
  - destruct (Nat.ltb_spec 0 (List.length df)) as [Hpos | _]; [|lra].
    apply Qnat_ratio_in_unit; [apply List.filter_length_le | exact Hpos].
  - destruct (Nat.ltb_spec 0 (List.length df)) as [Hpos | _]; [|lra].
    apply Qnat_ratio_in_unit; [apply List.filter_length_le | exact Hpos].
  - intros ->. split; reflexivity.
Qed.





(* ------------------------------------------------------------------ *)
(** ** Capacity allocation: shape of the plan *)

Lemma allocation_loop_partial_only_last (available : Q) (pending : list pending_row) :
  forall st,
    fully_allocated (st_allocated st) ->
    partial_only_last available (allocation_loop available st pending).
Proof.
  induction pending as [|p rest IH]; intros st Hfull; simpl.
  - now left.
  - unfold allocation_step.
    destruct (Qle_bool _ _).
    + apply IH. cbn [st_allocated]. apply Forall_app. split; [exact Hfull|].
      constructor; [reflexivity | constructor].
    + destruct (Qlt_bool 0 _) eqn:Eleft.
      * right. do 2 eexists. cbn [st_allocated st_capacity_used].
        split; [reflexivity|]. split; [exact Hfull|].
        split; [reflexivity|]. split; [|reflexivity].
        now apply Qlt_bool_true in Eleft.
      * now apply IH.
Qed.

Lemma descending_remove (xs ys : list Q) (x : Q) :
  descending (xs ++ x :: ys) -> descending (xs ++ ys).
Proof.
  unfold descending. induction xs as [|a rest IH]; simpl; intro Hs.
  - now inversion Hs.
  - inversion Hs as [|? ? Hrest Hall]; subst. constructor; [now apply IH|].
    rewrite Forall_forall in *. intros b Hb. apply Hall.
    apply in_app_or in Hb. apply in_or_app. destruct Hb; [now left | right; now right].
Qed.

Lemma descending_prefix (xs ys : list Q) : descending (xs ++ ys) -> descending xs.
Proof.
  unfold descending. induction xs as [|a rest IH]; simpl; intro Hs; [constructor|].
  inversion Hs as [|? ? Hrest Hall]; subst. constructor; [now apply IH|].
  rewrite Forall_forall in *. intros b Hb. apply Hall. apply in_or_app. now left.
Qed.

Lemma allocation_loop_descending (available : Q) (pending : list pending_row) :
  forall st,
    descending (map alloc_priority_score (st_allocated st)
                ++ map (fun p => priority_score (scored p)) pending) ->
    descending (map alloc_priority_score
                    (st_allocated (allocation_loop available st pending))).
Proof.
  induction pending as [|p rest IH]; intros st Hs; simpl.
  - now rewrite app_nil_r in Hs.
  - simpl in Hs. unfold allocation_step.
    destruct (Qle_bool _ _).
    + apply IH. cbn [st_allocated]. rewrite map_app, <- app_assoc. exact Hs.
    + destruct (Qlt_bool 0 _).
      * cbn [st_allocated]. rewrite map_app. simpl.
        apply descending_prefix
          with (ys := map (fun p => priority_score (scored p)) rest).
        rewrite <- app_assoc. exact Hs.
      * apply IH. exact (descending_remove _ _ _ Hs).
Qed.

Lemma filter_fully_allocated (allocs : list allocation) :
  fully_allocated allocs -> filter fits_in_capacity allocs = allocs.
Proof.
  intro Hfull. apply forallb_filter_id. apply forallb_forall.
  unfold fully_allocated in Hfull. rewrite Forall_forall in Hfull. exact Hfull.
Qed.

(** X20. The plan of [simulate_capacity_allocation] lists its allocations in
    descending priority order.  Either all of them are full allocations, or
    all but the last are and the last is a partial allocation of a positive
    number of points, in which case [capacity_used] equals
    [available_capacity]; [initiatives_fully_allocated] counts the full
    ones. *)
Theorem allocation_plan_shape :
  forall (E : Externals) (initiatives_df : list initiative_row)
         (sprints_df : list sprint_row) (future_sprints : Q),
    exists plan,
      simulate_capacity_allocation initiatives_df sprints_df future_sprints = Ok plan /\
      StronglySorted (fun a b => alloc_priority_score b <= alloc_priority_score a)
                     (allocated_initiatives plan) /\
      ((fully_allocated (allocated_initiatives plan) /\
        initiatives_fully_allocated plan = List.length (allocated_initiatives plan)) \/
       (exists pre last,
           allocated_initiatives plan = pre ++ [last] /\
           fully_allocated pre /\
           fits_in_capacity last = false /\
           0 < points_allocated last /\
           capacity_used plan = available_capacity plan /\
           initiatives_fully_allocated plan = List.length pre)).
Proof.
  intros E df sprints_df future_sprints. unfold simulate_capacity_allocation.
  destruct (pending_initiatives_total E df) as [rows Hrows]. rewrite Hrows.
  cbn [bind]. eexists. split; [reflexivity|].
  cbn [allocated_initiatives initiatives_fully_allocated capacity_used
       available_capacity].
  set (available := np_mean (tail_n 3 (map velocity sprints_df)) * future_sprints).
  split.
  - assert (Hdesc : descending
                      (map alloc_priority_score
                           (st_allocated (allocation_loop available initial_state rows)))).
    { apply allocation_loop_descending. simpl.
      apply StronglySorted_map.
      apply Sorted_StronglySorted;
        [|exact (pending_initiatives_sorted E df rows Hrows)].
      intros a b c Hab Hbc.
      now apply Qle_trans with (priority_score (scored b)). }
    unfold descending in Hdesc.
    remember (st_allocated (allocation_loop available initial_state rows)) as allocs.
    clear Heqallocs. induction allocs as [|a rest IH]; [constructor|].
    simpl in Hdesc. inversion Hdesc as [|? ? Hrest Hall]; subst.
    constructor; [now apply IH|].
    rewrite Forall_forall in *. intros b Hb. apply Hall. now apply in_map.
  - destruct (allocation_loop_partial_only_last available rows initial_state)
      as [Hfull | [pre [last [Hsplit [Hpre [Hlast [Hpoints Hused]]]]]]].
    + constructor.
    + left. split; [exact Hfull|]. now rewrite filter_fully_allocated.
    + right. exists pre, last. repeat split; try assumption.
      rewrite Hsplit, filter_app, (filter_fully_allocated pre Hpre). simpl.
      rewrite Hlast. now rewrite app_nil_r.
Qed.

(** X21. The [capacity_utilization] reported by
    [simulate_capacity_allocation] never exceeds 100, and it is 0 when the
    available capacity is not positive; the test
    [capacity_utilization > 110] of [generate_portfolio_recommendations]
    therefore never holds. *)
Theorem capacity_utilization_at_most_hundred :
  forall (E : Externals) (initiatives_df : list initiative_row)
         (sprints_df : list sprint_row) (future_sprints : Q),
    exists plan,
      simulate_capacity_allocation initiatives_df sprints_df future_sprints = Ok plan /\
      capacity_utilization plan <= 100 /\
      ~ 110 < capacity_utilization plan /\
      (available_capacity plan <= 0 -> capacity_utilization plan = 0).
Proof.
  intros E df sprints_df future_sprints. unfold simulate_capacity_allocation.
  destruct (pending_initiatives_total E df) as [rows Hrows]. rewrite Hrows.
  cbn [bind]. eexists. split; [reflexivity|].
  cbn [capacity_utilization available_capacity].
  set (available := np_mean (tail_n 3 (map velocity sprints_df)) * future_sprints).
  assert (Hle : (if Qlt_bool 0 available
                 then st_capacity_used (allocation_loop available initial_state rows)
                      / available * 100
                 else 0) <= 100).
  { destruct (Qlt_bool 0 available) eqn:Epos; [|lra].
    apply Qlt_bool_true in Epos.
    destruct (allocation_never_exceeds_capacity available rows (Qlt_le_weak _ _ Epos))
      as [Hused _].
    assert (Hratio : st_capacity_used (allocation_loop available initial_state rows)
                     / available <= 1).
    { apply Qle_shift_div_r; [exact Epos | now rewrite Qmult_1_l]. }
    lra. }
  split; [exact Hle|]. split.
  - intro Hover. lra.
  - intro Hneg. destruct (Qlt_bool 0 available) eqn:Epos; [|reflexivity].
    apply Qlt_bool_true in Epos. exfalso. lra.
Qed.

(* ------------------------------------------------------------------ *)
(** ** Percentiles *)

Lemma insert_asc_In (x y : Q) (xs : list Q) :
  In y (insert_asc x xs) <-> y = x \/ In y xs.
Proof.
  induction xs as [|z rest IH]; simpl.
  - intuition.
  - destruct (Qle_bool x z); simpl; [intuition|]. rewrite IH. intuition.
Qed.

Lemma sort_asc_In (xs : list Q) (y : Q) : In y (sort_asc xs) <-> In y xs.
Proof.
  unfold sort_asc. induction xs as [|x rest IH]; simpl; [tauto|].
  rewrite insert_asc_In, IH. intuition.
Qed.

Lemma insert_asc_length (x : Q) (xs : list Q) :
  List.length (insert_asc x xs) = S (List.length xs).
Proof.
  induction xs as [|z rest IH]; simpl; [reflexivity|].
  destruct (Qle_bool x z); simpl; [reflexivity | now rewrite IH].
Qed.

Lemma sort_asc_length (xs : list Q) : List.length (sort_asc xs) = List.length xs.
Proof.
  unfold sort_asc. induction xs as [|x rest IH]; simpl; [reflexivity|].
  now rewrite insert_asc_length, IH.
Qed.

Lemma insert_asc_sorted (x : Q) (xs : list Q) :
  StronglySorted Qle xs -> StronglySorted Qle (insert_asc x xs).
Proof.
  induction 1 as [|z rest Hrest IH Hall]; simpl.
  - repeat constructor.
  - destruct (Qle_bool x z) eqn:E.
    + apply Qle_bool_iff in E. constructor; [now constructor|].
      constructor; [exact E|].
      rewrite Forall_forall in *. intros y Hy.
      apply Qle_trans with z; [exact E | now apply Hall].
    + apply Qle_bool_false in E. constructor; [exact IH|].
      rewrite Forall_forall in *. intros y Hy. apply insert_asc_In in Hy.
      destruct Hy as [-> | Hy]; [now apply Qlt_le_weak | now apply Hall].
Qed.

Lemma sort_asc_sorted (xs : list Q) : StronglySorted Qle (sort_asc xs).
Proof.
  unfold sort_asc. induction xs as [|x rest IH]; simpl.
  - constructor.
  - now apply insert_asc_sorted.
Qed.

Lemma sorted_nth_le (xs : list Q) :
  StronglySorted Qle xs ->
  forall i j, (i <= j)%nat -> (j < List.length xs)%nat -> nth i xs 0 <= nth j xs 0.
Proof.
  induction 1 as [|x rest Hrest IH Hall]; intros i j Hij Hj; simpl in Hj; [lia|].
  destruct j as [|j]; [replace i with 0%nat by lia; apply Qle_refl|].
  destruct i as [|i]; simpl.
  - rewrite Forall_forall in Hall. apply Hall. apply nth_In. lia.
  - apply IH; lia.
Qed.

(** The rank a percentile is read at, and the two ranks around it. *)
Lemma percentile_rank (n : nat) (q : Q) :
  (0 < n)%nat -> 0 <= q <= 100 ->
  let v := (Qnat n - 1) * (q / 100) in
  let lo := Z.to_nat (Qfloor v) in
  (lo <= n - 1)%nat /\
  inject_Z (Z.of_nat lo) <= v /\
  v < inject_Z (Z.of_nat lo) + 1 /\
  inject_Z (Z.of_nat lo) = inject_Z (Qfloor v).
Proof.
  intros Hn [Hq0 Hq1] v lo.
  assert (Hn1 : Qnat n - 1 == inject_Z (Z.of_nat (n - 1))).
  { unfold Qnat. rewrite Nat2Z.inj_sub by lia. unfold Z.sub.
    rewrite inject_Z_plus, inject_Z_opp. reflexivity. }
  assert (Hspan : 0 <= Qnat n - 1).
  { rewrite Hn1. change 0 with (inject_Z 0). rewrite <- Zle_Qle. lia. }
  assert (Ht : 0 <= q / 100 <= 1).
  { split; [apply Qdiv_nonneg | apply Qle_shift_div_r]; lra. }
  assert (Hv0 : 0 <= v) by (unfold v; nra).
  assert (Hv1 : v <= Qnat n - 1) by (unfold v; nra).
  assert (Hf0 : (0 <= Qfloor v)%Z).
  { rewrite <- (Qfloor_Z 0). now apply Qfloor_resp_le. }
  assert (Hf1 : (Qfloor v <= Z.of_nat (n - 1))%Z).
  { rewrite <- (Qfloor_Z (Z.of_nat (n - 1))). apply Qfloor_resp_le.
    now rewrite <- Hn1. }
  assert (Hlo : Z.of_nat lo = Qfloor v) by (unfold lo; now rewrite Z2Nat.id).
  repeat split.
  - lia.
  - rewrite Hlo. apply Qfloor_le.
  - rewrite Hlo. pose proof (Qlt_floor v) as Hfl. rewrite inject_Z_plus in Hfl.
    exact Hfl.
  - now rewrite Hlo.
Qed.

(** A percentile lies between the two order statistics around its rank. *)
Lemma np_percentile_between (xs : list Q) (q : Q) :
  xs <> [] -> 0 <= q <= 100 ->
  let lo := Z.to_nat (Qfloor ((Qlen xs - 1) * (q / 100))) in
  let hi := Nat.min (S lo) (List.length xs - 1) in
  nth lo (sort_asc xs) 0 <= np_percentile xs q <= nth hi (sort_asc xs) 0.
Proof.
  intros Hne Hq lo hi.
  assert (Hn : (0 < List.length xs)%nat) by (destruct xs; [congruence | simpl; lia]).
  destruct (percentile_rank (List.length xs) q Hn Hq) as [Hlo [Hle [Hlt _]]].
  change (lo <= List.length xs - 1)%nat in Hlo.
  change (inject_Z (Z.of_nat lo) <= (Qlen xs - 1) * (q / 100)) in Hle.
  change ((Qlen xs - 1) * (q / 100) < inject_Z (Z.of_nat lo) + 1) in Hlt.
  unfold np_percentile. cbv zeta. fold lo. fold hi.
  assert (Hab : nth lo (sort_asc xs) 0 <= nth hi (sort_asc xs) 0).
  { apply sorted_nth_le; [apply sort_asc_sorted | unfold hi; lia |].
    rewrite sort_asc_length. unfold hi. lia. }
  set (a := nth lo (sort_asc xs) 0) in *.
  set (b := nth hi (sort_asc xs) 0) in *.
  set (v := (Qlen xs - 1) * (q / 100)) in *.
  split; nra.
Qed.

Lemma np_percentile_monotone (xs : list Q) (q1 q2 : Q) :
  xs <> [] -> 0 <= q1 -> q1 <= q2 -> q2 <= 100 ->
  np_percentile xs q1 <= np_percentile xs q2.
Proof.
  intros Hne H0 H12 H100.
  assert (Hn : (0 < List.length xs)%nat) by (destruct xs; [congruence | simpl; lia]).
  assert (Hq1 : 0 <= q1 <= 100) by (split; lra).
  assert (Hq2 : 0 <= q2 <= 100) by (split; lra).
  pose proof (np_percentile_between xs q1 Hne Hq1) as [_ Hup1].
  pose proof (np_percentile_between xs q2 Hne Hq2) as [Hlow2 _].
  destruct (percentile_rank (List.length xs) q1 Hn Hq1) as [Hlo1 [Hle1 [Hlt1 _]]].
  destruct (percentile_rank (List.length xs) q2 Hn Hq2) as [Hlo2 [Hle2 [Hlt2 _]]].
  set (v1 := (Qlen xs - 1) * (q1 / 100)) in *.
  set (v2 := (Qlen xs - 1) * (q2 / 100)) in *.
  set (lo1 := Z.to_nat (Qfloor v1)) in *.
  set (lo2 := Z.to_nat (Qfloor v2)) in *.
  change (lo1 <= List.length xs - 1)%nat in Hlo1.
  change (lo2 <= List.length xs - 1)%nat in Hlo2.
  change (inject_Z (Z.of_nat lo1) <= v1) in Hle1.
  change (inject_Z (Z.of_nat lo2) <= v2) in Hle2.
  change (v1 < inject_Z (Z.of_nat lo1) + 1) in Hlt1.
  change (v2 < inject_Z (Z.of_nat lo2) + 1) in Hlt2.
  assert (Hspan : 0 <= Qlen xs - 1).
  { unfold Qlen. pose proof (Qnat_pos _ Hn) as Hpos. unfold Qnat in *.
    assert (H1 : inject_Z 1 <= inject_Z (Z.of_nat (List.length xs)))
      by (rewrite <- Zle_Qle; lia).
    change (inject_Z 1) with 1 in H1. lra. }
  assert (Ht1 : 0 <= q1 / 100) by (apply Qdiv_nonneg; lra).
  assert (Ht12 : q1 / 100 <= q2 / 100) by (apply Qdiv_le_compat_nonneg; lra).
  assert (Hv0 : 0 <= v1) by (unfold v1; nra).
  assert (Hv : v1 <= v2) by (unfold v1, v2; nra).
  assert (Hlo : (lo1 <= lo2)%nat).
  { unfold lo1, lo2. apply Z2Nat.inj_le.
    - rewrite <- (Qfloor_Z 0). now apply Qfloor_resp_le.
    - rewrite <- (Qfloor_Z 0). apply Qfloor_resp_le.
      exact (Qle_trans _ _ _ Hv0 Hv).
    - now apply Qfloor_resp_le. }
  destruct (Nat.eq_dec lo1 lo2) as [Heq | Hneq].
  - unfold np_percentile. cbv zeta. fold v1 v2 lo1 lo2. rewrite <- Heq.
    assert (Hab : nth lo1 (sort_asc xs) 0
                  <= nth (Nat.min (S lo1) (List.length xs - 1)) (sort_asc xs) 0).
    { apply sorted_nth_le; [apply sort_asc_sorted | lia |].
      rewrite sort_asc_length. lia. }
    set (a := nth lo1 (sort_asc xs) 0) in *.
    set (b := nth (Nat.min (S lo1) (List.length xs - 1)) (sort_asc xs) 0) in *.
    nra.
  - apply Qle_trans
      with (nth (Nat.min (S lo1) (List.length xs - 1)) (sort_asc xs) 0);
      [exact Hup1|].
    apply Qle_trans with (nth lo2 (sort_asc xs) 0); [|exact Hlow2].
    apply sorted_nth_le; [apply sort_asc_sorted | lia |].
    rewrite sort_asc_length. lia.
Qed.

Lemma np_percentile_nonneg (xs : list Q) (q : Q) :
  xs <> [] -> 0 <= q <= 100 -> Forall (fun x => 0 <= x) xs ->
  0 <= np_percentile xs q.
Proof.
  intros Hne Hq Hall.
  assert (Hn : (0 < List.length xs)%nat) by (destruct xs; [congruence | simpl; lia]).
  destruct (percentile_rank (List.length xs) q Hn Hq) as [Hlo _].
  pose proof (np_percentile_between xs q Hne Hq) as [Hlow _].
  apply Qle_trans
    with (nth (Z.to_nat (Qfloor ((Qlen xs - 1) * (q / 100)))) (sort_asc xs) 0);
    [|exact Hlow].
  rewrite Forall_forall in Hall. apply Hall. apply sort_asc_In. apply nth_In.
  rewrite sort_asc_length. unfold Qlen. lia.
Qed.

(** X22. With two or more historical velocities and at least one
    simulation, the percentiles returned by
    [predict_sprint_completion_probability] are ordered and not negative:
    [0 <= confidence_interval_10 <= median_velocity <= confidence_interval_90]. *)
Theorem completion_percentiles_ordered :
  forall (E : Externals) (committed : Q) (historical_velocities : list Q)
         (n_simulations : nat),
    (2 <= List.length historical_velocities)%nat ->
    (0 < n_simulations)%nat ->
    let p := predict_sprint_completion_probability
               committed historical_velocities n_simulations in
    exists median,
      median_velocity p = Some median /\
      0 <= confidence_interval_10 p /\
      confidence_interval_10 p <= median /\
      median <= confidence_interval_90 p.
Proof.
  intros E committed hist n Hlong Hn p. subst p.
  unfold predict_sprint_completion_probability.
  destruct (Nat.ltb_spec (List.length hist) 2) as [Hshort | _]; [lia|].
  cbn [median_velocity confidence_interval_10 confidence_interval_90].
  set (sample := map (fun v => np_maximum v 0)
                     (np_random_normal (np_mean hist) (np_std hist) n)).
  assert (Hne : sample <> []).
  { intro Hnil. apply (f_equal (@List.length Q)) in Hnil.
    unfold sample in Hnil. rewrite length_map, np_random_normal_length in Hnil.
    simpl in Hnil. lia. }
  assert (Hall : Forall (fun x => 0 <= x) sample).
  { apply Forall_forall. intros v Hv. apply in_map_iff in Hv.
    destruct Hv as [d [<- _]]. apply np_maximum_zero_nonneg. }
  eexists. split; [reflexivity|]. split; [|split].
  - apply np_percentile_nonneg; [exact Hne | split; lra | exact Hall].
  - apply np_percentile_monotone; [exact Hne | lra | lra | lra].
  - apply np_percentile_monotone; [exact Hne | lra | lra | lra].
Qed.

Lemma completion_percentiles_ordered_witness :
  (2 <= List.length [30; 32; 31; 33; 34])%nat /\
  (0 < 20)%nat /\
  exists median,
    median_velocity (@predict_sprint_completion_probability reference_externals
                       40 [30; 32; 31; 33; 34] 20) = Some median /\
    0 <= confidence_interval_10
           (@predict_sprint_completion_probability reference_externals
              40 [30; 32; 31; 33; 34] 20) /\
    confidence_interval_10
      (@predict_sprint_completion_probability reference_externals
         40 [30; 32; 31; 33; 34] 20) <= median /\
    median <= confidence_interval_90
                (@predict_sprint_completion_probability reference_externals
                   40 [30; 32; 31; 33; 34] 20).
Proof.
  assert (Hlong : (2 <= List.length [30; 32; 31; 33; 34])%nat) by (simpl; lia).
  assert (Hn : (0 < 20)%nat) by lia.
  split; [exact Hlong|]. split; [exact Hn|].
  exact (completion_percentiles_ordered
           reference_externals 40 [30; 32; 31; 33; 34] 20%nat Hlong Hn).
Defined.
